(** * OptiFind: catalogue-based source finding around SoFiA 2

    A shallow embedding of [optifind.py].  The script is a straight-line
    module: it reads a parameter template, resolves the axes of the data
    cube, reads a source catalogue, runs the external finder on a clipped
    region around every source and merges the resulting catalogues.

    The script runs under Python 3.  Text is modelled as [string], one
    character per code point below 256; a Python dict as an association
    list in insertion order; integers as [Z]; the pixel coordinates
    returned by the WCS transform as binary64 floating-point numbers
    (primitive [float]), whose sum and difference with a radius are
    rounded as the hardware rounds them.  Printing, file writes, subprocess calls,
    [sys.exit] and uncaught exceptions are recorded by a small
    trace-and-outcome monad. *)

From Stdlib Require Import Strings.String Strings.Ascii Lists.List.
From Stdlib Require Import ZArith Bool Lia DecimalString Floats.
Import ListNotations.

Local Open Scope string_scope.
Local Open Scope Z_scope.

(** ** Python string primitives *)

Module Py.

(** ["\n"], ["\t"] and the double quote as one-character strings. *)
Definition nl : string := String "010"%char EmptyString.
Definition tab : string := String "009"%char EmptyString.
Definition dq : string := String "034"%char EmptyString.

(** [c.isspace()] for a code point below 256: TAB..CR, FS..US, space,
    NEL and NBSP. *)
Definition isspace_char (c : ascii) : bool :=
  let n := N_of_ascii c in
  ((9 <=? n) && (n <=? 13) || (28 <=? n) && (n <=? 32)
   || (n =? 133) || (n =? 160))%N.

(** Truth value of a string: non-empty. *)
Definition truthy (s : string) : bool :=
  match s with EmptyString => false | String _ _ => true end.

(** [s.isspace()]: at least one character and all of them whitespace. *)
Fixpoint all_space (s : string) : bool :=
  match s with
  | EmptyString => true
  | String c s' => isspace_char c && all_space s'
  end.

Definition isspace (s : string) : bool := truthy s && all_space s.

Fixpoint lstrip (s : string) : string :=
  match s with
  | EmptyString => EmptyString
  | String c s' => if isspace_char c then lstrip s' else s
  end.

Fixpoint rstrip (s : string) : string :=
  match s with
  | EmptyString => EmptyString
  | String c s' =>
      match rstrip s' with
      | EmptyString => if isspace_char c then EmptyString else String c EmptyString
      | r => String c r
      end
  end.

(** [s.strip()] *)
Definition strip (s : string) : string := rstrip (lstrip s).

(** [s and s[0] == c] *)
Definition starts_with (c : ascii) (s : string) : bool :=
  match s with
  | EmptyString => false
  | String a _ => Ascii.eqb a c
  end.

(** [c in s] for a one-character [c]. *)
Fixpoint contains (c : ascii) (s : string) : bool :=
  match s with
  | EmptyString => false
  | String a s' => Ascii.eqb a c || contains c s'
  end.

(** [s.find(c)]: index of the first occurrence, [-1] when absent. *)
Fixpoint find (c : ascii) (s : string) : Z :=
  match s with
  | EmptyString => -1
  | String a s' =>
      if Ascii.eqb a c then 0
      else let i := find c s' in if i <? 0 then -1 else i + 1
  end.

(** [s.split(c, 1)] as a pair: the text before the first [c] and the text
    after it; the whole string and nothing when [c] does not occur. *)
Fixpoint split1 (c : ascii) (s : string) : string * string :=
  match s with
  | EmptyString => (EmptyString, EmptyString)
  | String a s' =>
      if Ascii.eqb a c then (EmptyString, s')
      else let (l, r) := split1 c s' in (String a l, r)
  end.

(** [s.split(c)] *)
Fixpoint split (c : ascii) (s : string) : list string :=
  match s with
  | EmptyString => [EmptyString]
  | String a s' =>
      if Ascii.eqb a c then EmptyString :: split c s'
      else match split c s' with
           | [] => [String a EmptyString]
           | w :: ws => String a w :: ws
           end
  end.

(** [s.replace(a, b)] for one-character [a] and [b]. *)
Fixpoint replace (a b : ascii) (s : string) : string :=
  match s with
  | EmptyString => EmptyString
  | String c s' => String (if Ascii.eqb c a then b else c) (replace a b s')
  end.

(** ["{:d}".format(z)] *)
Definition fmt_d (z : Z) : string := NilZero.string_of_int (Z.to_int z).

(** [l[i]] with Python's negative indices; [None] is an [IndexError]. *)
Definition index {A : Type} (l : list A) (i : Z) : option A :=
  let n := Z.of_nat (length l) in
  if i <? 0 then (if i + n <? 0 then None else nth_error l (Z.to_nat (i + n)))
  else nth_error l (Z.to_nat i).

(** An insertion-ordered dict with string keys. *)
Definition dict := list (string * string).

Fixpoint get (k : string) (d : dict) : option string :=
  match d with
  | [] => None
  | (k', v) :: d' => if String.eqb k k' then Some v else get k d'
  end.

(** [d[k] = v]: replaces the value in place, or appends a new key. *)
Fixpoint set (k v : string) (d : dict) : dict :=
  match d with
  | [] => [(k, v)]
  | (k', v') :: d' =>
      if String.eqb k k' then (k', v) :: d' else (k', v') :: set k v d'
  end.

Definition keys (d : dict) : list string := map fst d.

(** [s[-1]]'s comparison in [s and s[-1] != c], negated: the last
    character of [s] is [c]. *)
Fixpoint ends_with (c : ascii) (s : string) : bool :=
  match s with
  | EmptyString => false
  | String a EmptyString => Ascii.eqb a c
  | String _ s' => ends_with c s'
  end.

(** [len(l)] *)
Definition len {A : Type} (l : list A) : Z := Z.of_nat (List.length l).

(** [range(n)] *)
Definition range (n : Z) : list Z := map Z.of_nat (seq 0 (Z.to_nat n)).

(** One decimal digit. *)
Definition digit (c : ascii) : option Z :=
  let n := N_of_ascii c in
  if ((48 <=? n) && (n <=? 57))%N then Some (Z.of_N n - 48) else None.

(** The digits of an integer literal read from the left, single
    underscores being allowed between two digits. *)
Fixpoint digits (acc : Z) (after_digit : bool) (s : string) : option Z :=
  match s with
  | EmptyString => if after_digit then Some acc else None
  | String c s' =>
      if Ascii.eqb c "_"
      then (if after_digit then digits acc false s' else None)
      else match digit c with
           | Some d => digits (10 * acc + d) true s'
           | None => None
           end
  end.

(** The blanks [int] accepts around a literal: TAB..CR and the space,
    which the C parser skips, and NEL and NBSP, which the conversion of
    the text to ASCII turns into spaces first.  FS..US, which [strip]
    removes, are no blanks here. *)
Definition int_space (c : ascii) : bool :=
  let n := N_of_ascii c in
  ((9 <=? n) && (n <=? 13) || (n =? 32) || (n =? 133) || (n =? 160))%N.

Fixpoint int_lstrip (s : string) : string :=
  match s with
  | EmptyString => EmptyString
  | String c s' => if int_space c then int_lstrip s' else s
  end.

Fixpoint int_rstrip (s : string) : string :=
  match s with
  | EmptyString => EmptyString
  | String c s' =>
      match int_rstrip s' with
      | EmptyString => if int_space c then EmptyString else String c EmptyString
      | r => String c r
      end
  end.

(** The number of decimal digits of a literal. *)
Fixpoint count_digits (s : string) : nat :=
  match s with
  | EmptyString => O
  | String c s' =>
      match digit c with
      | Some _ => S (count_digits s')
      | None => count_digits s'
      end
  end.

(** [sys.get_int_max_str_digits()], as CPython sets it by default. *)
Definition max_str_digits : nat := 4300.

(** [int(s)]: blanks around, an optional sign, then digits, no more than
    [max_str_digits] of them; [None] is a [ValueError]. *)
Definition int (s : string) : option Z :=
  match int_rstrip (int_lstrip s) with
  | EmptyString => None
  | String c r =>
      if Nat.ltb max_str_digits (count_digits (String c r)) then None
      else if Ascii.eqb c "+" then digits 0 false r
      else if Ascii.eqb c "-" then option_map Z.opp (digits 0 false r)
      else digits 0 false (String c r)
  end.

(** What [math.floor] and [math.ceil] make of a float: an integer, or
    the [ValueError] of a NaN, or the [OverflowError] of an infinity. *)
Inductive integral : Type :=
| Integer (z : Z)
| NotANumber
| Infinite.

(** The integer [n] times two to the [e], rounded down and rounded up. *)
Definition scale_down (n e : Z) : Z :=
  if 0 <=? e then Z.shiftl n e else Z.shiftr n (- e).

Definition scale_up (n e : Z) : Z :=
  if 0 <=? e then Z.shiftl n e else - Z.shiftr (- n) (- e).

Definition signed (s : bool) (m : positive) : Z :=
  if s then Z.neg m else Z.pos m.

(** [math.floor(x)] *)
Definition floor (x : float) : integral :=
  match Prim2SF x with
  | S754_zero _ => Integer 0
  | S754_finite s m e => Integer (scale_down (signed s m) e)
  | S754_nan => NotANumber
  | S754_infinity _ => Infinite
  end.

(** [math.ceil(x)] *)
Definition ceil (x : float) : integral :=
  match Prim2SF x with
  | S754_zero _ => Integer 0
  | S754_finite s m e => Integer (scale_up (signed s m) e)
  | S754_nan => NotANumber
  | S754_infinity _ => Infinite
  end.

(** The float an integer operand becomes next to a float: the nearest
    binary64 number, ties to even; [None] is the [OverflowError] of an
    integer too large for one. *)
Definition float_of_int (z : Z) : option float :=
  match binary_normalize prec emax z 0 false with
  | S754_infinity _ => None
  | x => Some (SF2Prim x)
  end.

(** The lines that iterating over a text file yields for the text [s]:
    each one with its line end, which is always [\n], whether the file had
    [\n], [\r\n] or [\r]; the last one may lack it. *)
Fixpoint text_lines (s : string) : list string :=
  match s with
  | EmptyString => []
  | String c s' =>
      if Ascii.eqb c "010" then nl :: text_lines s'
      else if Ascii.eqb c "013" then
        match s' with
        | String c' s'' =>
            if Ascii.eqb c' "010" then nl :: text_lines s''
            else nl :: text_lines s'
        | EmptyString => [nl]
        end
      else match text_lines s' with
           | [] => [String c EmptyString]
           | line :: lines => String c line :: lines
           end
  end.

End Py.

(** ** Effects *)

Inductive event : Type :=
| Stdout (text : string)
| Stderr (text : string)
| WriteFile (path content : string)
| System (command : string).

Inductive exn : Type :=
| KeyError (key : string)
| ValueError
| IndexError
| OSError
| OverflowError.

(** How a piece of the script ends: it falls through with a value, calls
    [sys.exit], or raises an exception nobody has caught yet. *)
Inductive outcome (A : Type) : Type :=
| Done (a : A)
| Exit (code : Z)
| Uncaught (e : exn).
Arguments Done {A} a.
Arguments Exit {A} code.
Arguments Uncaught {A} e.

Definition run (A : Type) : Type := list event * outcome A.

Definition ret {A} (a : A) : run A := ([], Done a).

Definition bind {A B} (m : run A) (k : A -> run B) : run B :=
  match m with
  | (t, Done a) => let (t', r) := k a in ((t ++ t')%list, r)
  | (t, Exit c) => (t, Exit c)
  | (t, Uncaught e) => (t, Uncaught e)
  end.

Notation "x <- m ;; k" := (bind m (fun x => k))
  (at level 61, m at next level, right associativity).
Notation "m ;;; k" := (bind m (fun _ => k))
  (at level 61, right associativity).

Definition emit (e : event) : run unit := ([e], Done tt).
Definition raise {A} (e : exn) : run A := ([], Uncaught e).

(** [print(s)] *)
Definition print (s : string) : run unit := emit (Stdout (s ++ Py.nl)).

(** [exit_error(message)] *)
Definition exit_error {A} (message : string) : run A :=
  ([Stderr ("ERROR: " ++ message ++ Py.nl)], Exit 1).

(** [try: body / except: handler] with a bare [except], which also
    catches the [SystemExit] raised by [sys.exit]. *)
Definition try_except {A} (body handler : run A) : run A :=
  match body with
  | (t, Done a) => (t, Done a)
  | (t, _) => let (t', r) := handler in ((t ++ t')%list, r)
  end.

(** [d[k]] *)
Definition lookup (k : string) (d : Py.dict) : run string :=
  match Py.get k d with
  | Some v => ret v
  | None => raise (KeyError k)
  end.

(** [l[i]] *)
Definition item {A} (l : list A) (i : Z) : run A :=
  match Py.index l i with
  | Some a => ret a
  | None => raise IndexError
  end.

(** Exit status of the interpreter. *)
Definition exit_status (o : outcome unit) : Z :=
  match o with
  | Done _ => 0
  | Exit c => c
  | Uncaught _ => 1
  end.

(** ** The script *)

(** Command line after lines 105-111: [sys.argv[1..5]], the two radii
    already converted by [int]. *)
Record args : Type := {
  par_file : string;
  source_list : string;
  radius_spat : Z;
  radius_spec : Z;
  sofia_2_executable : string
}.

(** What the script keeps of the WCS object: [wcs.array_shape[::-1]] and
    [wcs.axis_type_names]. *)
Record cube : Type := {
  axis_size : list Z;
  axis_type : list string
}.

(** Everything outside the script.  A file is the list of lines its
    iteration yields; [None] stands for a call that raises. *)
Record world : Type := {
  par_lines : option (list string);
  read_wcs : string -> option cube;
  cat_lines : option (list string);
  (** [float] of every coordinate followed by [wcs.wcs_world2pix(.., 0)[0]] *)
  world2pix : list string -> option (list float);
  writable : string -> bool;
  (** the files present once all runs of the finder are over *)
  out_lines : string -> option (list string)
}.

(** *** Lines 114-132: the parameter file *)

Definition par_line (pars : Py.dict) (raw : string) : Py.dict :=
  let line := Py.strip raw in
  if Py.truthy line && negb (Py.starts_with "#" line) && Py.contains "=" line then
    let (key, value) := Py.split1 "=" line in
    let key := Py.strip key in
    let value := Py.strip value in
    if Py.truthy value then
      let comment := Py.find "#" value in
      if comment <? 0 then Py.set key value pars
      else Py.set key (Py.strip (fst (Py.split1 "#" value))) pars
    else Py.set key EmptyString pars
  else pars.

Definition parse_pars (lines : list string) : Py.dict :=
  fold_left par_line lines [].

Definition read_pars (w : world) (a : args) : run Py.dict :=
  pars <- try_except
            match par_lines w with
            | Some lines => ret (parse_pars lines)
            | None => raise OSError
            end
            (exit_error ("Failed to read parameter file: " ++ par_file a)) ;;
  if Py.len pars =? 0 then exit_error "No valid parameter settings found."
  else ret pars.

(** *** Lines 135-143: the WCS of the input cube *)

Definition read_cube (w : world) (pars : Py.dict) : run cube :=
  try_except
    (name <- lookup "input.data" pars ;;
     match read_wcs w name with
     | Some c => ret c
     | None => raise OSError
     end)
    (exit_error "Failed to read WCS from input data cube.").

(** *** Lines 146-152: spatial and spectral axes *)

Definition axes_t : Type := Z * Z * Z.

Definition axis_step (axes : axes_t) (i : Z) (t : string) : axes_t :=
  let '(a0, a1, a2) := axes in
  if String.eqb t "RA" || String.eqb t "GLON" then (i, a1, a2)
  else if String.eqb t "DEC" || String.eqb t "GLAT" then (a0, i, a2)
  else if String.eqb t "FREQ" || String.eqb t "VELO" || String.eqb t "VRAD"
          || String.eqb t "VOPT" || String.eqb t "FELO" then (a0, a1, i)
  else axes.

Fixpoint scan_axes (axis_type : list string) (idx : list Z) (axes : axes_t)
  : run axes_t :=
  match idx with
  | [] => ret axes
  | i :: idx' =>
      t <- item axis_type i ;;
      scan_axes axis_type idx' (axis_step axes i t)
  end.

Definition resolve_axes (naxes : Z) (axis_type : list string) : run axes_t :=
  axes <- scan_axes axis_type (Py.range naxes) (-1, -1, -1) ;;
  let '(a0, a1, a2) := axes in
  if (a0 =? -1) || (a1 =? -1) || (a2 =? -1)
  then exit_error "Failed to identify spatial and/or spectral axis of data cube."
  else ret axes.

(** *** Lines 155-173: the source catalogue *)

Definition cat_state : Type := list (list string) * Z.

Definition cat_line (st : cat_state) (raw : string) : run cat_state :=
  let (sources, n_cols) := st in
  let line := Py.strip raw in
  if Py.truthy line && negb (Py.starts_with "#" line) then
    let cols := Py.split "," line in
    n_cols <- (if negb (n_cols =? Py.len cols) then
                 if n_cols >? 0
                 then exit_error "Variable number of catalogue columns encountered."
                 else ret (Py.len cols)
               else ret n_cols) ;;
    let cols := map Py.strip cols in
    ret ((sources ++ [cols])%list, n_cols)
  else ret st.

Fixpoint cat_loop (lines : list string) (st : cat_state) : run cat_state :=
  match lines with
  | [] => ret st
  | raw :: lines' => st' <- cat_line st raw ;; cat_loop lines' st'
  end.

Definition read_catalogue (w : world) (a : args) (naxes : Z)
  : run (list (list string)) :=
  st <- try_except
          match cat_lines w with
          | Some lines => cat_loop lines ([], 0)
          | None => raise OSError
          end
          (exit_error ("Failed to read input catalogue: " ++ source_list a)) ;;
  let (sources, n_cols) := st in
  (if Py.len sources =? 0
   then exit_error "No sources found in input catalogue." else ret tt) ;;;
  (if negb (n_cols =? naxes + 1)
   then exit_error ("Data cube is " ++ Py.fmt_d naxes ++ "D, but "
                    ++ Py.fmt_d (n_cols - 1)
                    ++ " coordinate values given in catalogue.")
   else ret tt) ;;;
  ret sources.

(** *** Lines 176-222: the loop over all sources *)

(** An integer operand of a float operation. *)
Definition to_float (z : Z) : run float :=
  match Py.float_of_int z with
  | Some x => ret x
  | None => raise OverflowError
  end.

Definition to_integer (i : Py.integral) : run Z :=
  match i with
  | Py.Integer z => ret z
  | Py.NotANumber => raise ValueError
  | Py.Infinite => raise OverflowError
  end.

(** [int(math.floor(p - r))], the difference being a float. *)
Definition floor_diff (p : float) (r : Z) : run Z :=
  r' <- to_float r ;;
  to_integer (Py.floor (PrimFloat.sub p r')).

(** [int(math.ceil(p + r))], the sum being a float. *)
Definition ceil_sum (p : float) (r : Z) : run Z :=
  r' <- to_float r ;;
  to_integer (Py.ceil (PrimFloat.add p r')).

(** [max(0, int(math.floor(p - r)))] *)
Definition lower (p : float) (r : Z) : run Z :=
  fl <- floor_diff p r ;;
  ret (Z.max 0 fl).

(** [min(size - 1, int(math.ceil(p + r)))] *)
Definition upper (size : Z) (p : float) (r : Z) : run Z :=
  ce <- ceil_sum p r ;;
  ret (Z.min (size - 1) ce).

Record region : Type := {
  x_min : Z; x_max : Z;
  y_min : Z; y_max : Z;
  z_min : Z; z_max : Z
}.

(** Lines 184-189, for the pixel position and the sizes of the three
    resolved axes. *)
Definition work_out_region (a : args) (px py pz : float) (sx sy sz : Z)
  : run region :=
  x_min <- lower px (radius_spat a) ;;
  x_max <- upper sx px (radius_spat a) ;;
  y_min <- lower py (radius_spat a) ;;
  y_max <- upper sy py (radius_spat a) ;;
  z_min <- lower pz (radius_spec a) ;;
  z_max <- upper sz pz (radius_spec a) ;;
  ret {| x_min := x_min; x_max := x_max;
         y_min := y_min; y_max := y_max;
         z_min := z_min; z_max := z_max |}.

(** Line 192 *)
Definition within_bounds (a : args) (r : region) : bool :=
  (x_max r - x_min r >=? radius_spat a)
  && (y_max r - y_min r >=? radius_spat a)
  && (z_max r - z_min r >=? radius_spec a).

(** Line 196 *)
Definition fmt_region (r : region) : string :=
  Py.fmt_d (x_min r) ++ ", " ++ Py.fmt_d (x_max r) ++ ", "
  ++ Py.fmt_d (y_min r) ++ ", " ++ Py.fmt_d (y_max r) ++ ", "
  ++ Py.fmt_d (z_min r) ++ ", " ++ Py.fmt_d (z_max r).

(** Line 200 *)
Definition suffix (id : string) : string :=
  "_" ++ Py.replace "/" "-" (Py.replace " " "_" id).

(** Lines 213-214 *)
Definition serialise (pars : Py.dict) : string :=
  String.concat EmptyString (map (fun kv => fst kv ++ Py.tab ++ "=" ++ Py.tab ++ snd kv ++ Py.nl) pars).

Definition tmp_file : string := "sofia_optifind_parameter_file.tmp".

(** Lines 180-189: the region of one catalogue row. *)
Definition source_region (w : world) (a : args) (c : cube) (axes : axes_t)
    (coords : list string) : run region :=
  coord_pix <- match world2pix w coords with
               | Some pix => ret pix
               | None => raise ValueError
               end ;;
  let '(a0, a1, a2) := axes in
  px <- item coord_pix a0 ;;
  x_min <- lower px (radius_spat a) ;;
  sx <- item (axis_size c) a0 ;;
  px <- item coord_pix a0 ;;
  x_max <- upper sx px (radius_spat a) ;;
  py <- item coord_pix a1 ;;
  y_min <- lower py (radius_spat a) ;;
  sy <- item (axis_size c) a1 ;;
  py <- item coord_pix a1 ;;
  y_max <- upper sy py (radius_spat a) ;;
  pz <- item coord_pix a2 ;;
  z_min <- lower pz (radius_spec a) ;;
  sz <- item (axis_size c) a2 ;;
  pz <- item coord_pix a2 ;;
  z_max <- upper sz pz (radius_spec a) ;;
  ret {| x_min := x_min; x_max := x_max;
         y_min := y_min; y_max := y_max;
         z_min := z_min; z_max := z_max |}.

(** Lines 193-220: one run of the finder. *)
Definition run_sofia (w : world) (a : args) (pars : Py.dict)
    (cat_names : list string) (id : string) (r : region) : run (list string) :=
  let pars_copy := pars in
  let pars_copy := Py.set "input.region" (fmt_region r) pars_copy in
  print ("Processing source " ++ Py.dq ++ id ++ Py.dq) ;;;
  shown <- lookup "input.region" pars_copy ;;
  print ("  Region: " ++ shown) ;;;
  let suffix := suffix id in
  filename <- lookup "output.filename" pars_copy ;;
  let pars_copy :=
    if Py.truthy filename
    then Py.set "output.filename" (filename ++ suffix) pars_copy
    else Py.set "output.filename" ("optifind" ++ suffix) pars_copy in
  name <- lookup "output.filename" pars_copy ;;
  let cat_names := (cat_names ++ [name])%list in
  let pars_copy := Py.set "parameter.offset" "true" pars_copy in
  try_except
    (if writable w tmp_file
     then emit (WriteFile tmp_file (serialise pars_copy))
     else raise OSError)
    (exit_error ("Failed to write temporary SoFiA 2 parameter file. Is the"
                 ++ Py.nl
                 ++ "       current working directory write-protected?")) ;;;
  emit (System (sofia_2_executable a ++ " " ++ tmp_file)) ;;;
  emit (System ("rm -f " ++ tmp_file)) ;;;
  ret cat_names.

(** The body of the loop, lines 179-222.  A catalogue row is never empty
    ([split] returns at least one field); the first field is the id. *)
Definition process_source (w : world) (a : args) (pars : Py.dict) (c : cube)
    (axes : axes_t) (cat_names : list string) (src : list string)
  : run (list string) :=
  match src with
  | [] => raise IndexError
  | id :: coords =>
      r <- source_region w a c axes coords ;;
      if within_bounds a r
      then run_sofia w a pars cat_names id r
      else print ("Skipping source " ++ Py.dq ++ id ++ Py.dq
                  ++ ": outside bounds.") ;;;
           ret cat_names
  end.

Fixpoint sources_loop (w : world) (a : args) (pars : Py.dict) (c : cube)
    (axes : axes_t) (sources : list (list string)) (cat_names : list string)
  : run (list string) :=
  match sources with
  | [] => ret cat_names
  | src :: rest =>
      cat_names' <- process_source w a pars c axes cat_names src ;;
      sources_loop w a pars c axes rest cat_names'
  end.

(** *** Lines 225-258: the merged catalogue *)

(** Lines 245-246 *)
Definition merge_line (need_header : bool) (hc : string * string)
    (line : string) : string * string :=
  let (header, content) := hc in
  let header :=
    if need_header && Py.truthy line && Py.starts_with "#" line
    then header ++ line else header in
  let content :=
    if Py.truthy line && negb (Py.isspace line) && negb (Py.starts_with "#" line)
    then content ++ line else content in
  (header, content).

Definition merge_state : Type := string * string * bool.

Definition cat_path (output_dir name : string) : string :=
  output_dir ++ name ++ "_cat.txt".

(** Lines 240-250 *)
Fixpoint merge_loop (w : world) (output_dir : string) (cat_names : list string)
    (st : merge_state) : run merge_state :=
  match cat_names with
  | [] => ret st
  | name :: rest =>
      let '(header, content, need_header) := st in
      hc <- try_except
              match out_lines w (cat_path output_dir name) with
              | Some lines => ret (fold_left (merge_line need_header) lines
                                             (header, content))
              | None => raise OSError
              end
              (exit_error ("Failed to read SoFiA 2 catalogue: "
                           ++ cat_path output_dir name)) ;;
      let (header, content) := hc in
      let need_header :=
        if need_header && Py.truthy header then false else need_header in
      merge_loop w output_dir rest (header, content, need_header)
  end.

Definition merged_name : string := "optifind_merged_catalogue.txt".

Definition merge (w : world) (pars : Py.dict) (cat_names : list string)
  : run unit :=
  let n := Py.len cat_names in
  if negb (n =? 0) then
    output_dir <- lookup "output.directory" pars ;;
    fmt_plain <- lookup "output.writeCatASCII" pars ;;
    let output_dir :=
      if Py.truthy output_dir && negb (Py.ends_with "/" output_dir)
      then output_dir ++ "/" else output_dir in
    if Py.truthy fmt_plain then
      emit (Stdout ("Creating merged ASCII catalogue:" ++ Py.nl ++ "  "
                    ++ output_dir ++ merged_name ++ Py.nl)) ;;;
      st <- merge_loop w output_dir cat_names (EmptyString, EmptyString, true) ;;
      let '(header, content, _) := st in
      try_except
        (if writable w (output_dir ++ merged_name)
         then emit (WriteFile (output_dir ++ merged_name)
                              ((header ++ Py.nl) ++ content))
         else raise OSError)
        (exit_error ("Failed to write merged output catalogue. Is the"
                     ++ Py.nl
                     ++ "       current working directory write-protected?"))
    else ret tt
  else ret tt.

(** *** The whole script, from line 114 on *)

Definition main (w : world) (a : args) : run unit :=
  pars <- read_pars w a ;;
  c <- read_cube w pars ;;
  let naxes := Py.len (axis_size c) in
  axes <- resolve_axes naxes (axis_type c) ;;
  sources <- read_catalogue w a naxes ;;
  cat_names <- sources_loop w a pars c axes sources [] ;;
  merge w pars cat_names.

(** Kinds of events. *)
Definition is_system (e : event) : bool :=
  match e with System _ => true | _ => false end.

Definition is_stderr (e : event) : bool :=
  match e with Stderr _ => true | _ => false end.

Definition is_write (e : event) : bool :=
  match e with WriteFile _ _ => true | _ => false end.

(** ** Vocabulary of the specification *)

(** *** Regions *)





(** *** Axis roles *)

Inductive role : Type := Spatial1 | Spatial2 | Spectral.

Definition vocabulary (r : role) : list string :=
  match r with
  | Spatial1 => ["RA"; "GLON"]
  | Spatial2 => ["DEC"; "GLAT"]
  | Spectral => ["FREQ"; "VELO"; "VRAD"; "VOPT"; "FELO"]
  end.

(** The role a label belongs to, read off the chain of comparisons of
    [axis_step]. *)
Definition role_of (t : string) : option role :=
  if String.eqb t "RA" || String.eqb t "GLON" then Some Spatial1
  else if String.eqb t "DEC" || String.eqb t "GLAT" then Some Spatial2
  else if String.eqb t "FREQ" || String.eqb t "VELO" || String.eqb t "VRAD"
          || String.eqb t "VOPT" || String.eqb t "FELO" then Some Spectral
  else None.

Definition axis_of (axes : axes_t) (r : role) : Z :=
  let '(a0, a1, a2) := axes in
  match r with Spatial1 => a0 | Spatial2 => a1 | Spectral => a2 end.

Definition set_axis (axes : axes_t) (r : role) (i : Z) : axes_t :=
  let '(a0, a1, a2) := axes in
  match r with
  | Spatial1 => (i, a1, a2)
  | Spatial2 => (a0, i, a2)
  | Spectral => (a0, a1, i)
  end.

(** [i] is what the scan of [labels] leaves for role [r]: [-1] when no
    label belongs to the vocabulary of [r], otherwise the position of the
    last label that does. *)
Definition last_match (r : role) (labels : list string) (i : Z) : Prop :=
  (i = -1 /\ forall t, In t labels -> ~ In t (vocabulary r))
  \/ (0 <= i
      /\ (exists t, nth_error labels (Z.to_nat i) = Some t
                    /\ In t (vocabulary r))
      /\ forall j t, (Z.to_nat i < j)%nat -> nth_error labels j = Some t ->
                     ~ In t (vocabulary r)).

(** The message of line 152. *)
Definition axes_error : string :=
  "Failed to identify spatial and/or spectral axis of data cube.".

(** The scan without the index lookups: label [t] sits at position [i]. *)
Fixpoint scan_labels (labels : list string) (i : Z) (axes : axes_t) : axes_t :=
  match labels with
  | [] => axes
  | t :: labels' => scan_labels labels' (i + 1) (axis_step axes i t)
  end.

(** *** Parameter lines *)

(** A line that sets a parameter: not blank, not a comment, with a [=]. *)
Definition well_formed (raw : string) : bool :=
  let line := Py.strip raw in
  Py.truthy line && negb (Py.starts_with "#" line) && Py.contains "=" line.

(** Key and value of such a line: the trimmed text before the first [=],
    and the trimmed text after it up to the first [#]. *)
Definition entry (raw : string) : string * string :=
  let (key, value) := Py.split1 "=" (Py.strip raw) in
  (Py.strip key, Py.strip (fst (Py.split1 "#" (Py.strip value)))).

(** *** Catalogue rows *)

Definition is_data (line : string) : bool :=
  Py.truthy line && negb (Py.starts_with "#" line).

(** The data lines of a catalogue, split into fields (not yet trimmed). *)
Definition rows (lines : list string) : list (list string) :=
  map (Py.split ",") (filter is_data (map Py.strip lines)).

Definition rows_of (w : world) : list (list string) :=
  match cat_lines w with
  | Some lines => rows lines
  | None => []
  end.

Definition uniform (n : Z) (rs : list (list string)) : bool :=
  forallb (fun r => Py.len r =? n) rs.

(** The message of line 165. *)
Definition columns_error : string :=
  "Variable number of catalogue columns encountered.".

(** The three ways a catalogue is refused: no data line at all, a data
    line whose number of fields differs from that of the first one, a
    number of fields other than the number of cube axes plus one. *)
Definition catalogue_fatal (naxes : Z) (rs : list (list string)) : Prop :=
  rs = []
  \/ (exists r, In r rs /\ Py.len r <> Py.len (hd [] rs))
  \/ Py.len (hd [] rs) <> naxes + 1.

(** *** Output names *)

(** The id with each space replaced by [_] and each [/] by [-]. *)
Definition sanitise_char (c : ascii) : ascii :=
  if Ascii.eqb c " " then "_"%char
  else if Ascii.eqb c "/" then "-"%char
  else c.

Fixpoint sanitise (id : string) : string :=
  match id with
  | EmptyString => EmptyString
  | String c id' => String (sanitise_char c) (sanitise id')
  end.


(** The output name as the specification words it: the template value,
    [_] and the sanitised id, or [optifind_] and the sanitised id when the
    template value is blank. *)
Definition derived_name (v id : string) : string :=
  if Py.all_space v then "optifind_" ++ sanitise id
  else v ++ "_" ++ sanitise id.

(** What lines 197-198 print for an accepted source. *)
Definition processing_events (id : string) (r : region) : list event :=
  [Stdout (("Processing source " ++ Py.dq ++ id ++ Py.dq) ++ Py.nl);
   Stdout (("  Region: " ++ fmt_region r) ++ Py.nl)].

(** What line 222 prints for a rejected source. *)
Definition skip_event (id : string) : event :=
  Stdout (("Skipping source " ++ Py.dq ++ id ++ Py.dq ++ ": outside bounds.")
          ++ Py.nl).

(** The output name of a run, lines 200-205, for the template value [v]. *)
Definition run_name (v id : string) : string :=
  if Py.truthy v then v ++ suffix id else "optifind" ++ suffix id.

(** The parameters of a run, lines 194-208. *)
Definition run_pars (pars : Py.dict) (v id : string) (r : region) : Py.dict :=
  Py.set "parameter.offset" "true"
    (Py.set "output.filename" (run_name v id)
       (Py.set "input.region" (fmt_region r) pars)).

(** What a run that goes through leaves in the trace. *)
Definition run_events (a : args) (pars : Py.dict) (v id : string) (r : region)
  : list event :=
  (processing_events id r
   ++ [WriteFile tmp_file (serialise (run_pars pars v id r));
       System (sofia_2_executable a ++ " " ++ tmp_file);
       System ("rm -f " ++ tmp_file)])%list.

(** A catalogue row whose coordinates convert, with its region. *)
Definition converts (w : world) (a : args) (c : cube) (axes : axes_t)
    (src : list string) (r : region) : Prop :=
  exists id coords,
    src = id :: coords /\ source_region w a c axes coords = ret r.

(** *** Merged catalogue *)

Definition is_hash (line : string) : bool :=
  Py.truthy line && Py.starts_with "#" line.

Definition is_body (line : string) : bool :=
  Py.truthy line && negb (Py.isspace line) && negb (Py.starts_with "#" line).

Definition join (lines : list string) : string :=
  fold_right append EmptyString lines.

(** All [#] lines of the first file that has one. *)
Fixpoint first_header (files : list (list string)) : list string :=
  match files with
  | [] => []
  | f :: files' =>
      match filter is_hash f with
      | [] => first_header files'
      | hs => hs
      end
  end.

(** The body lines of all files, in order. *)
Definition body (files : list (list string)) : list string :=
  flat_map (filter is_body) files.

(** The run of [#] lines a file starts with. *)
Fixpoint leading_hash (f : list string) : list string :=
  match f with
  | [] => []
  | l :: f' => if is_hash l then l :: leading_hash f' else []
  end.

(** Whether the flag [need_header] is still up after these files. *)
Definition still_needed (files : list (list string)) : bool :=
  match first_header files with [] => true | _ :: _ => false end.

(** The first line of what line 235 prints. *)
Definition creating_event (output_dir : string) : event :=
  Stdout ("Creating merged ASCII catalogue:" ++ Py.nl ++ "  "
          ++ output_dir ++ merged_name ++ Py.nl).

(** The files named by the run results are all there. *)
Definition readable (w : world) (output_dir : string) (cat_names : list string)
    (files : list (list string)) : Prop :=
  Forall2 (fun name f => out_lines w (cat_path output_dir name) = Some f)
          cat_names files.

(** [output_dir] after line 232. *)
Definition with_slash (output_dir : string) : string :=
  if Py.truthy output_dir && negb (Py.ends_with "/" output_dir)
  then output_dir ++ "/" else output_dir.

(** ** Concrete inputs used by the examples *)

(** A line of a text file, with its newline. *)
Definition ln (s : string) : string := s ++ Py.nl.

Definition demo_args : args :=
  {| par_file := "sofia.par"; source_list := "sources.txt";
     radius_spat := 5; radius_spec := 3; sofia_2_executable := "sofia" |}.


Definition demo_cube : cube :=
  {| axis_size := [100; 100; 50; 1];
     axis_type := ["RA"; "DEC"; "FREQ"; "STOKES"] |}.

(** A template with a comment line, a blank line, an inline comment and a
    blank value. *)
Definition demo_template : list string :=
  [ln "# SoFiA 2 template"; ln EmptyString;
   ln "input.data = cube.fits  # the cube";
   ln "output.directory =";
   ln "  output.filename = cube_out";
   ln "output.writeCatASCII = true"].

(** Two lines that set the same key. *)
Definition twice_template : list string := [ln "a = 1"; ln "a = 2"].

(** A catalogue of two sources for [demo_cube]: the first converts to the
    pixel (50, 50, 25, 0), the second to (-100, 50, 25, 0), off the cube. *)
Definition demo_catalogue : list string :=
  [ln "# id, ra, dec, freq, stokes";
   ln "Source A/1, 10.0, 20.0, 1.4e9, 1";
   ln "far, 1, 2, 3, 4"].

Definition demo_world2pix (coords : list string) : option (list float) :=
  if String.eqb (hd EmptyString coords) "10.0"
  then Some [50; 50; 25; 0]%float
  else Some [-100; 50; 25; 0]%float.

(** The catalogue the finder leaves for the one run: a header line, a
    row, a second header line, a blank line and a last row without
    newline. *)
Definition demo_output : list string :=
  [ln "# h1"; ln "1 2 3"; ln "# h2"; ln "   "; "4 5 6"].

(** A world around [demo_cube] and [demo_catalogue], for a given template
    and given catalogues of the runs. *)
Definition world_of (template : list string)
    (out : string -> option (list string)) : world :=
  {| par_lines := Some template;
     read_wcs := fun _ => Some demo_cube;
     cat_lines := Some demo_catalogue;
     world2pix := demo_world2pix;
     writable := fun _ => true;
     out_lines := out |}.

Definition demo_world : world :=
  world_of demo_template
    (fun path => if String.eqb path "cube_out_Source_A-1_cat.txt"
                 then Some demo_output else None).

Definition demo_region : region :=
  {| x_min := 45; x_max := 55; y_min := 45; y_max := 55;
     z_min := 22; z_max := 28 |}.

(** A template that leaves the output name blank and switches the plain
    text catalogue off. *)
Definition no_ascii_template : list string :=
  [ln "input.data = cube.fits";
   ln "output.directory =";
   ln "output.filename =";
   ln "output.writeCatASCII = false"].

(** The finder has written no text catalogue. *)
Definition no_ascii_world : world :=
  world_of no_ascii_template (fun _ => None).

(** A text catalogue of that name is lying around from an earlier run. *)
Definition stale_world : world :=
  world_of no_ascii_template
    (fun path => if String.eqb path "optifind_Source_A-1_cat.txt"
                 then Some demo_output else None).

(** A template without [output.filename]. *)
Definition no_filename_template : list string :=
  [ln "input.data = cube.fits"; ln "output.directory ="].

(** A template without [output.directory]. *)
Definition no_directory_template : list string :=
  [ln "input.data = cube.fits"; ln "output.filename ="].

(** A template without [output.writeCatASCII]. *)
Definition no_format_template : list string :=
  [ln "input.data = cube.fits"; ln "output.filename =";
   ln "output.directory = out"].

(** The second row of [demo_catalogue], and its region for [demo_args]. *)
Definition far_coords : list string := ["1"; "2"; "3"; "4"].

Definition far_region : region :=
  {| x_min := 0; x_max := -95; y_min := 45; y_max := 55;
     z_min := 22; z_max := 28 |}.

(** Three runs: the first catalogue has no header, the second and the
    third have one. *)
Definition three_names : list string := ["a"; "b"; "c"].

Definition three_files : list (list string) :=
  [[ln "1 1"]; [ln "# h"; ln "2 2"]; [ln "# other"; ln "3 3"]].

Definition three_world : world :=
  world_of demo_template
    (fun path =>
       if String.eqb path "a_cat.txt" then nth_error three_files 0
       else if String.eqb path "b_cat.txt" then nth_error three_files 1
       else if String.eqb path "c_cat.txt" then nth_error three_files 2
       else None).

(** Two runs whose catalogues have no header line at all. *)
Definition bare_names : list string := ["a"; "b"].

Definition bare_files : list (list string) :=
  [[ln "1 1"; ln EmptyString]; [ln "2 2"; "3 3"]].

Definition bare_world : world :=
  world_of demo_template
    (fun path =>
       if String.eqb path "a_cat.txt" then nth_error bare_files 0
       else if String.eqb path "b_cat.txt" then nth_error bare_files 1
       else None).

(** [w] with another catalogue file. *)
Definition with_catalogue (w : world) (lines : option (list string)) : world :=
  {| par_lines := par_lines w;
     read_wcs := read_wcs w;
     cat_lines := lines;
     world2pix := world2pix w;
     writable := writable w;
     out_lines := out_lines w |}.

(** A catalogue that mixes rows of three and of four fields. *)
Definition mixed_catalogue : list string :=
  [ln "s1, 1, 2"; ln "# comment"; ln "s2, 1, 2, 3"].

(** *** More vocabulary *)

(** The value the last entry for key [k] gives, if there is one. *)
Fixpoint last_value (k : string) (entries : list (string * string))
  : option string :=
  match entries with
  | [] => None
  | (k', v) :: entries' =>
      match last_value k entries' with
      | Some x => Some x
      | None => if String.eqb k k' then Some v else None
      end
  end.

(** The entries of the well-formed lines of a template, in file order. *)
Definition entries_of (lines : list string) : list (string * string) :=
  map entry (filter well_formed lines).

(** A key and a value as the loader leaves them: both trimmed, no [=] in
    the key, no [#] in the value. *)
Definition clean_entry (kv : string * string) : Prop :=
  Py.strip (fst kv) = fst kv /\ Py.contains "=" (fst kv) = false
  /\ Py.strip (snd kv) = snd kv /\ Py.contains "#" (snd kv) = false.

(** The messages of lines 130 and 132. *)
Definition par_file_error (a : args) : string :=
  "Failed to read parameter file: " ++ par_file a.

Definition no_pars_error : string := "No valid parameter settings found.".

(** The message of line 143. *)
Definition wcs_error : string := "Failed to read WCS from input data cube.".

(** A catalogue row as the loop over the sources needs it: an id followed
    by [naxes] coordinates, every field trimmed. *)
Definition source_row (naxes : Z) (src : list string) : Prop :=
  Py.len src = naxes + 1
  /\ Forall (fun field => Py.strip field = field) src
  /\ exists id coords, src = id :: coords /\ Py.len coords = naxes.

(** The message of line 216. *)
Definition tmp_error : string :=
  "Failed to write temporary SoFiA 2 parameter file. Is the"
  ++ Py.nl ++ "       current working directory write-protected?".

(** The output names the loop adds for these rows and their regions: one
    per accepted row, in catalogue order. *)
Fixpoint loop_names (a : args) (v : string) (sources : list (list string))
    (regions : list region) : list string :=
  match sources, regions with
  | (id :: _) :: sources', r :: regions' =>
      if within_bounds a r
      then run_name v id :: loop_names a v sources' regions'
      else loop_names a v sources' regions'
  | _, _ => []
  end.

(** The trace the loop leaves for these rows and their regions. *)
Fixpoint loop_events (a : args) (pars : Py.dict) (v : string)
    (sources : list (list string)) (regions : list region) : list event :=
  match sources, regions with
  | (id :: _) :: sources', r :: regions' =>
      ((if within_bounds a r then run_events a pars v id r
        else [skip_event id])
       ++ loop_events a pars v sources' regions')%list
  | _, _ => []
  end.

(** The ids of catalogue rows. *)
Definition ids (sources : list (list string)) : list string :=
  map (hd EmptyString) sources.

(** [w] in a directory where nothing can be written. *)
Definition read_only (w : world) : world :=
  {| par_lines := par_lines w;
     read_wcs := read_wcs w;
     cat_lines := cat_lines w;
     world2pix := world2pix w;
     writable := fun _ => false;
     out_lines := out_lines w |}.

(** The messages of lines 248 and 258. *)
Definition merge_read_error (path : string) : string :=
  "Failed to read SoFiA 2 catalogue: " ++ path.

Definition merge_write_error : string :=
  "Failed to write merged output catalogue. Is the"
  ++ Py.nl ++ "       current working directory write-protected?".

(** *** Lines 44-111: usage and command line *)

(** The texts written by [print_instructions], one per call of
    [sys.stdout.write]. *)
Definition usage_text : list string :=
  [Py.nl;
   " Usage:" ++ Py.nl
     ++ "   optifind.py <par_file> <source_list> <r_spat> <r_spec> [<sofia_exe>]"
     ++ Py.nl;
   Py.nl;
   " Arguments:" ++ Py.nl;
   "   <par_file>     Name of the SoFiA 2 control parameter file to be used."
     ++ Py.nl;
   "   <source_list>  Name of the input source catalogue file." ++ Py.nl;
   "   <r_spat>       Spatial radius of the sub-region in pixels." ++ Py.nl;
   "   <r_spec>       Spectral radius of the sub-region in channels."
     ++ Py.nl;
   "   <sofia_exe>    Optional name of the SoFiA 2 executable. Default: sofia."
     ++ Py.nl;
   Py.nl;
   " OptiFind serves as a wrapper script around the SoFiA 2 source finding pipeline"
     ++ Py.nl;
   " to allow source finding  on multiple sub-regions of a data cube centred on the"
     ++ Py.nl;
   " positions from a user-supplied source catalogue. The user will need to provide"
     ++ Py.nl;
   " a template SoFiA 2 parameter file that will be used in each source finding run"
     ++ Py.nl;
   " spawned by OptiFind." ++ Py.nl;
   Py.nl;
   " The template file must specify the input data cube to be searched and can also"
     ++ Py.nl;
   " define an output file name which will be used as the base name for all output."
     ++ Py.nl;
   " In addition,  the user must specify a source catalogue containing the position"
     ++ Py.nl;
   " of each source to be searched. The catalogue must specify the world coordinate"
     ++ Py.nl;
   " position of each source on a separate line. The following, comma-separated pa-"
     ++ Py.nl;
   " rameters must be supplied with each source:" ++ Py.nl;
   Py.nl;
   "   id, coord_1, coord_2, coord_3, ..." ++ Py.nl;
   Py.nl;
   " Here, id is a unique source ID  that will be used as an identifier  for output"
     ++ Py.nl;
   " products,  while coord_n denotes the coordinates in each dimension of the data"
     ++ Py.nl;
   " cube.  The coordinate must be specified in the raw units  of the data cube  as"
     ++ Py.nl;
   " specified in the FITS header.  A coordinate value must be given  for each axis"
     ++ Py.nl;
   " of the cube in the correct order." ++ Py.nl;
   Py.nl;
   " For example, if a cube has four axes  (right ascension, declination, frequency"
     ++ Py.nl;
   " and Stokes),  then four coordinate values need to be provided for each source,"
     ++ Py.nl;
   " and they must be given in the native units  specified in the header,  e.g. de-"
     ++ Py.nl;
   " grees for right ascension and Hz for frequency." ++ Py.nl;
   Py.nl;
   " Separate output catalogues and products will be created  for each SoFiA 2 run."
     ++ Py.nl;
   " Their base name will be either " ++ Py.dq ++ "optifind" ++ Py.dq
     ++ " + suffix or output.filename + suffix" ++ Py.nl;
   " depending on whether or not an output file name  was defined  in the parameter"
     ++ Py.nl;
   " file.  The suffix will be an underscore  followed by the source ID provided in"
     ++ Py.nl;
   " the catalogue file." ++ Py.nl;
   Py.nl;
   " In addition to the individual  output catalogues from each run,  OptiFind will"
     ++ Py.nl;
   " also create a single, merged catalogue called  " ++ Py.dq
     ++ "optifind_merged_catalogue.txt" ++ Py.dq ++ Py.nl;
   " in the same output directory.  Note that this feature is currently only avail-"
     ++ Py.nl;
   " able for plain-text ASCII catalogues, but not for XML or SQL catalogues."
     ++ Py.nl;
   Py.nl].

(** [sys.stdout.write] of each text in turn. *)
Fixpoint write_all (texts : list string) : run unit :=
  match texts with
  | [] => ret tt
  | text :: texts' => emit (Stdout text) ;;; write_all texts'
  end.

Definition print_instructions : run unit := write_all usage_text.

(** [sys.exit(code)] *)
Definition sys_exit {A} (code : Z) : run A := ([], Exit code).

(** [int(s)] as a step of the script. *)
Definition to_int (s : string) : run Z :=
  match Py.int s with
  | Some z => ret z
  | None => raise ValueError
  end.

(** The whole script, for the list [sys.argv]. *)
Definition script (w : world) (argv : list string) : run unit :=
  (if Py.len argv <? 5
   then print_instructions ;;; sys_exit 0
   else ret tt) ;;;
  arg3 <- item argv 3 ;;
  radius_spat <- to_int arg3 ;;
  arg4 <- item argv 4 ;;
  radius_spec <- to_int arg4 ;;
  sofia_2_executable <- (if Py.len argv >? 5 then item argv 5
                         else ret "sofia") ;;
  arg1 <- item argv 1 ;;
  arg2 <- item argv 2 ;;
  main w {| par_file := arg1; source_list := arg2;
            radius_spat := radius_spat; radius_spec := radius_spec;
            sofia_2_executable := sofia_2_executable |}.

(** A decimal literal of [n] digits. *)
Fixpoint ones (n : nat) : string :=
  match n with
  | O => EmptyString
  | S n' => String "1" (ones n')
  end.

(** The messages of lines 170, 172 and 173. *)
Definition cat_file_error (a : args) : string :=
  "Failed to read input catalogue: " ++ source_list a.

Definition no_sources_error : string := "No sources found in input catalogue.".

Definition dimension_error (naxes n_cols : Z) : string :=
  "Data cube is " ++ Py.fmt_d naxes ++ "D, but " ++ Py.fmt_d (n_cols - 1)
  ++ " coordinate values given in catalogue.".

(** A world whose conversion fails on a row with the coordinate [x]. *)
Definition picky_world : world :=
  {| par_lines := Some demo_template;
     read_wcs := fun _ => Some demo_cube;
     cat_lines := Some demo_catalogue;
     world2pix := fun coords =>
       if String.eqb (hd EmptyString coords) "x" then None
       else demo_world2pix coords;
     writable := fun _ => true;
     out_lines := fun _ => None |}.

(** The line that lines 213-214 write for one parameter. *)
Definition line_of (kv : string * string) : string :=
  fst kv ++ Py.tab ++ "=" ++ Py.tab ++ snd kv ++ Py.nl.

(** A parameter that survives being written and read again: clean, with a
    key that does not start with [#]. *)
Definition plain_entry (kv : string * string) : Prop :=
  clean_entry kv /\ Py.starts_with "#" (fst kv) = false.

(** A text without line feed and carriage return. *)
Definition single_line (s : string) : bool :=
  negb (Py.contains "010" s) && negb (Py.contains "013" s).

(** * Properties *)

(** ** The monad *)

Lemma bind_ret {A B} (a : A) (k : A -> run B) : bind (ret a) k = k a.
Proof. unfold bind, ret. destruct (k a); reflexivity. Qed.

Lemma bind_done {A B} (t : list event) (a : A) (k : A -> run B) :
  bind (t, Done a) k = ((t ++ fst (k a))%list, snd (k a)).
Proof. unfold bind. destruct (k a); reflexivity. Qed.

Lemma bind_emit {B} (e : event) (k : unit -> run B) :
  bind (emit e) k = (e :: fst (k tt), snd (k tt)).
Proof. unfold emit. rewrite bind_done. reflexivity. Qed.

Lemma bind_exit {A B} (t : list event) (c : Z) (k : A -> run B) :
  bind (t, Exit c) k = (t, Exit c).
Proof. reflexivity. Qed.

Lemma bind_uncaught {A B} (t : list event) (e : exn) (k : A -> run B) :
  bind (t, Uncaught e) k = (t, Uncaught e).
Proof. reflexivity. Qed.

Lemma run_eta {A} (m : run A) : (fst m, snd m) = m.
Proof. destruct m; reflexivity. Qed.

(** ** C1: regions *)





(** A window end is an integer or an error raised without output. *)
Lemma to_integer_cases (i : Py.integral) :
  (exists z, to_integer i = ret z)
  \/ to_integer i = raise ValueError \/ to_integer i = raise OverflowError.
Proof. destruct i; cbn; eauto. Qed.

Lemma floor_diff_cases (p : float) (r : Z) :
  (exists z, floor_diff p r = ret z)
  \/ floor_diff p r = raise ValueError
  \/ floor_diff p r = raise OverflowError.
Proof.
  unfold floor_diff, to_float. destruct (Py.float_of_int r) as [ x | ].
  - rewrite bind_ret. apply to_integer_cases.
  - right. right. reflexivity.
Qed.

Lemma ceil_sum_cases (p : float) (r : Z) :
  (exists z, ceil_sum p r = ret z)
  \/ ceil_sum p r = raise ValueError
  \/ ceil_sum p r = raise OverflowError.
Proof.
  unfold ceil_sum, to_float. destruct (Py.float_of_int r) as [ x | ].
  - rewrite bind_ret. apply to_integer_cases.
  - right. right. reflexivity.
Qed.



(** When one of the six ends is no integer, no region is worked out: the
    script stops on the [ValueError] of a NaN or on the [OverflowError] of
    an infinity or of a radius too large for a float, having printed
    nothing. *)
Lemma work_out_region_cases (a : args) (px py pz : float) (sx sy sz : Z) :
  (exists r, work_out_region a px py pz sx sy sz = ret r)
  \/ work_out_region a px py pz sx sy sz = raise ValueError
  \/ work_out_region a px py pz sx sy sz = raise OverflowError.
Proof.
  unfold work_out_region, lower, upper.
  repeat
    match goal with
    | |- context [ bind (floor_diff ?p ?r) _ ] =>
        destruct (floor_diff_cases p r) as [ (? & ->) | [ -> | -> ] ];
        [ rewrite !bind_ret | right; left; reflexivity
        | right; right; reflexivity ]
    | |- context [ bind (ceil_sum ?p ?r) _ ] =>
        destruct (ceil_sum_cases p r) as [ (? & ->) | [ -> | -> ] ];
        [ rewrite !bind_ret | right; left; reflexivity
        | right; right; reflexivity ]
    end.
  left. eexists. reflexivity.
Qed.

(** Boundary values on an axis of 100 pixels with radius 5: a source at
    pixel 0 has the window [0, 5] and is accepted, a source at pixel -1
    has the window [0, 4] and is rejected. *)
Example region_boundary_values :
  exists at_edge past_edge,
    work_out_region demo_args 0 50 25 100 100 50 = ret at_edge
    /\ work_out_region demo_args (-1) 50 25 100 100 50 = ret past_edge
    /\ (x_min at_edge, x_max at_edge) = (0, 5)
    /\ within_bounds demo_args at_edge = true
    /\ (x_min past_edge, x_max past_edge) = (0, 4)
    /\ within_bounds demo_args past_edge = false.
Proof. do 2 eexists. vm_compute. repeat split. Qed.

(** The sum and the difference are rounded to double precision before the
    ceiling and the floor are taken.  With radius 5, the pixel
    3.000000000000001 (the double just above 3 + 2^-51) gives the sum 8.0
    exactly and the upper end 8, not 9; the pixel -0.9999999999999999
    (the double just above -1) gives the sum 4.0 and, on an axis of 100
    pixels, the window [0, 4], which is rejected. *)
Example region_rounding_values :
  ceil_sum 0x1.8000000000002p+1 5 = ret 8
  /\ floor_diff 0x1.8000000000002p+1 5 = ret (-2)
  /\ ceil_sum (-0x1.fffffffffffffp-1) 5 = ret 4
  /\ floor_diff (-0x1.fffffffffffffp-1) 5 = ret (-6)
  /\ exists r,
       work_out_region demo_args (-0x1.fffffffffffffp-1) 50 25 100 100 50
       = ret r
       /\ (x_min r, x_max r) = (0, 4)
       /\ within_bounds demo_args r = false.
Proof.
  vm_compute. repeat split. eexists. repeat split.
Qed.

(** A radius too large for a double (from 2^1024 - 2^970 on), a pixel that
    is not a number and an infinite pixel stop the computation of the
    region; the largest radius that is converted is rounded to the largest
    double. *)
Example region_errors :
  floor_diff 50 (10 ^ 400) = raise OverflowError
  /\ floor_diff 50 (2 ^ 1024 - 2 ^ 970) = raise OverflowError
  /\ floor_diff 50 (2 ^ 1024 - 2 ^ 970 - 1) = ret (2 ^ 971 - 2 ^ 1024)
  /\ floor_diff nan 5 = raise ValueError
  /\ ceil_sum infinity 5 = raise OverflowError
  /\ work_out_region demo_args nan 50 25 100 100 50 = raise ValueError.
Proof. vm_compute. repeat split. Qed.


(** ** C5: axis roles *)

Lemma axis_step_role (axes : axes_t) (i : Z) (t : string) :
  axis_step axes i t =
  match role_of t with Some r => set_axis axes r i | None => axes end.
Proof.
  destruct axes as [[a0 a1] a2]. unfold axis_step, role_of.
  destruct (_ || _); [ reflexivity | ].
  destruct (_ || _); [ reflexivity | ].
  destruct (_ || _); reflexivity.
Qed.

Lemma role_of_vocabulary (t : string) (r : role) :
  role_of t = Some r <-> In t (vocabulary r).
Proof.
  unfold role_of.
  repeat match goal with
         | |- context [String.eqb t ?s] =>
             destruct (String.eqb_spec t s); [ subst; simpl | ]
         end.
  all: destruct r; simpl.
  all: try (intuition (try discriminate; congruence)).
Qed.

Lemma axis_of_set_same (axes : axes_t) (r : role) (i : Z) :
  axis_of (set_axis axes r i) r = i.
Proof. destruct axes as [[a0 a1] a2], r; reflexivity. Qed.

Lemma axis_of_set_other (axes : axes_t) (r0 r : role) (i : Z) :
  r0 <> r -> axis_of (set_axis axes r0 i) r = axis_of axes r.
Proof.
  intros Hne. destruct axes as [[a0 a1] a2], r0, r; try reflexivity;
    contradiction Hne; reflexivity.
Qed.

Lemma item_app_here {A} (pre l : list A) (x : A) :
  item (pre ++ x :: l) (Z.of_nat (length pre)) = ret x.
Proof.
  unfold item, Py.index.
  destruct (Z.ltb_spec (Z.of_nat (length pre)) 0); [ lia | ].
  rewrite Nat2Z.id, nth_error_app2, Nat.sub_diag by lia. reflexivity.
Qed.

Lemma scan_axes_labels (l pre : list string) (axes : axes_t) :
  scan_axes (pre ++ l) (map Z.of_nat (seq (length pre) (length l))) axes
  = ret (scan_labels l (Z.of_nat (length pre)) axes).
Proof.
  revert pre axes. induction l as [ | t l IH ]; intros pre axes.
  - reflexivity.
  - cbn [length seq map scan_axes scan_labels].
    rewrite item_app_here, bind_ret.
    replace (pre ++ t :: l)%list with ((pre ++ [t]) ++ l)%list
      by (rewrite <- app_assoc; reflexivity).
    specialize (IH (pre ++ [t])%list (axis_step axes (Z.of_nat (length pre)) t)).
    rewrite length_app in IH. cbn [length] in IH.
    rewrite Nat.add_1_r in IH. rewrite IH.
    f_equal. f_equal. lia.
Qed.

Lemma last_match_snoc_other (r : role) (pre : list string) (t : string) (i : Z) :
  last_match r pre i -> ~ In t (vocabulary r) -> last_match r (pre ++ [t]) i.
Proof.
  intros [ [Hi Hnone] | (Hi & (t0 & Ht0 & Hin) & Hlater) ] Ht.
  - left. split; [ assumption | ].
    intros t' Hin. apply in_app_or in Hin. destruct Hin as [Hin | [<- | []]]; auto.
  - right. split; [ assumption | ]. split.
    + exists t0. split; [ | assumption ].
      rewrite nth_error_app1; [ assumption | ].
      apply nth_error_Some. congruence.
    + intros j t' Hj Hnth.
      destruct (Nat.lt_ge_cases j (length pre)) as [Hlt | Hge].
      * rewrite nth_error_app1 in Hnth by assumption. eauto.
      * rewrite nth_error_app2 in Hnth by assumption.
        destruct (j - length pre)%nat as [ | k ]; cbn in Hnth.
        -- injection Hnth as <-. assumption.
        -- destruct k; discriminate.
Qed.

Lemma last_match_snoc_here (r : role) (pre : list string) (t : string) :
  In t (vocabulary r) ->
  last_match r (pre ++ [t]) (Z.of_nat (length pre)).
Proof.
  intros Hin. right. split; [ lia | ]. rewrite Nat2Z.id. split.
  - exists t. split; [ | assumption ].
    rewrite nth_error_app2, Nat.sub_diag by lia. reflexivity.
  - intros j t' Hj Hnth.
    assert (nth_error (pre ++ [t]) j <> None) as Hsome by congruence.
    apply nth_error_Some in Hsome. rewrite length_app in Hsome.
    cbn in Hsome. lia.
Qed.

Lemma last_match_step (pre : list string) (t : string) (axes : axes_t) :
  (forall r, last_match r pre (axis_of axes r)) ->
  forall r, last_match r (pre ++ [t])
              (axis_of (axis_step axes (Z.of_nat (length pre)) t) r).
Proof.
  intros Inv r. rewrite axis_step_role.
  destruct (role_of t) as [ r0 | ] eqn:Hrole.
  - assert (r0 = r \/ r0 <> r) as [ -> | Hne ]
        by (destruct r0, r; (left; reflexivity) || (right; discriminate)).
    + rewrite axis_of_set_same. apply last_match_snoc_here.
      apply role_of_vocabulary. assumption.
    + rewrite axis_of_set_other by assumption.
      apply last_match_snoc_other; [ apply Inv | ].
      intros Hin. apply role_of_vocabulary in Hin. congruence.
  - apply last_match_snoc_other; [ apply Inv | ].
    intros Hin. apply role_of_vocabulary in Hin. congruence.
Qed.

Lemma scan_labels_last_match (l pre : list string) (axes : axes_t) :
  (forall r, last_match r pre (axis_of axes r)) ->
  forall r, last_match r (pre ++ l)
              (axis_of (scan_labels l (Z.of_nat (length pre)) axes) r).
Proof.
  revert pre axes. induction l as [ | t l IH ]; intros pre axes Inv r.
  - rewrite app_nil_r. apply Inv.
  - cbn [scan_labels].
    replace (pre ++ t :: l)%list with ((pre ++ [t]) ++ l)%list
      by (rewrite <- app_assoc; reflexivity).
    replace (Z.of_nat (length pre) + 1)
      with (Z.of_nat (length (pre ++ [t])))
      by (rewrite length_app; cbn; lia).
    apply IH. apply last_match_step. assumption.
Qed.

Lemma last_match_unresolved (r : role) (labels : list string) (i : Z) :
  last_match r labels i ->
  (i = -1 <-> forall t, In t labels -> ~ In t (vocabulary r)).
Proof.
  intros [ [Hi Hnone] | (Hi & (t0 & Ht0 & Hin) & _) ].
  - tauto.
  - split; [ lia | ]. intros Hnone. exfalso.
    apply (Hnone t0); [ | assumption ].
    eapply nth_error_In. eassumption.
Qed.

(** C5.  The scan compares each label, as it is spelled, with the three
    vocabularies; for every role it leaves the position of the last label
    of that vocabulary, or -1 when there is none; and the resolution fails
    with the fatal error exactly when some role has no label at all,
    returning the three positions otherwise. *)
Theorem resolve_axes_last_wins (labels : list string) :
  exists axes,
    scan_axes labels (Py.range (Py.len labels)) (-1, -1, -1) = ret axes
    /\ (forall r, last_match r labels (axis_of axes r))
    /\ (resolve_axes (Py.len labels) labels = exit_error axes_error <->
        exists r, forall t, In t labels -> ~ In t (vocabulary r))
    /\ (resolve_axes (Py.len labels) labels = ret axes <->
        forall r, exists t, In t labels /\ In t (vocabulary r)).
Proof.
  pose (axes := scan_labels labels 0 (-1, -1, -1)).
  assert (scan_axes labels (Py.range (Py.len labels)) (-1, -1, -1) = ret axes)
    as Hscan.
  { unfold Py.range, Py.len. rewrite Nat2Z.id.
    apply (scan_axes_labels labels [] (-1, -1, -1)). }
  assert (forall r, last_match r labels (axis_of axes r)) as Hlast.
  { apply (scan_labels_last_match labels [] (-1, -1, -1)).
    intros r. left. split; [ destruct r; reflexivity | intros t [] ]. }
  exists axes. split; [ assumption | ]. split; [ assumption | ].
  unfold resolve_axes. rewrite Hscan, bind_ret.
  pose proof (last_match_unresolved _ _ _ (Hlast Spatial1)) as H0.
  pose proof (last_match_unresolved _ _ _ (Hlast Spatial2)) as H1.
  pose proof (last_match_unresolved _ _ _ (Hlast Spectral)) as H2.
  destruct axes as [[a0 a1] a2]. cbn [axis_of] in H0, H1, H2.
  assert (forall r t, In t labels -> In t (vocabulary r) \/ ~ In t (vocabulary r))
    as Hdec.
  { intros r t _. destruct (role_of t) as [ r' | ] eqn:E.
    - assert (r' = r \/ r' <> r) as [ -> | Hne ]
          by (destruct r', r; (left; reflexivity) || (right; discriminate)).
      + left. apply role_of_vocabulary. assumption.
      + right. intros Hin. apply role_of_vocabulary in Hin. congruence.
    - right. intros Hin. apply role_of_vocabulary in Hin. congruence. }
  destruct (Z.eqb_spec a0 (-1)) as [E0 | E0];
    destruct (Z.eqb_spec a1 (-1)) as [E1 | E1];
    destruct (Z.eqb_spec a2 (-1)) as [E2 | E2]; cbn [orb].
  all: split; split.
  all: try (intros _; first [ exists Spatial1; tauto | exists Spatial2; tauto
                            | exists Spectral; tauto | reflexivity ]).
  all: try discriminate.
  all: try (intros Hall;
            first [ destruct (Hall Spatial1) as (t & Ht & Hv); apply H0 in Ht;
                    [ contradiction | assumption ]
                  | destruct (Hall Spatial2) as (t & Ht & Hv); apply H1 in Ht;
                    [ contradiction | assumption ]
                  | destruct (Hall Spectral) as (t & Ht & Hv); apply H2 in Ht;
                    [ contradiction | assumption ] ]).
  - intros [r Hr]. destruct r; tauto.
  - intros _ r.
    assert (axis_of (a0, a1, a2) r <> -1) as Hne by (destruct r; assumption).
    destruct (Hlast r) as [ [Hi _] | (_ & (t & Ht & Hin) & _) ];
      [ contradiction | ].
    exists t. split; [ eapply nth_error_In; eassumption | assumption ].
Qed.

(** Labels are compared as spelled: a lower-case ["ra"] is no spatial
    axis, and of two spectral labels the later one is kept. *)
Example resolve_axes_examples :
  snd (resolve_axes 3 ["ra"; "DEC"; "FREQ"]) = Exit 1
  /\ resolve_axes 4 ["RA"; "DEC"; "FREQ"; "VELO"] = ret (0, 1, 3)
  /\ resolve_axes 4 ["RA"; "DEC"; "FREQ"; "STOKES"] = ret (0, 1, 2).
Proof. vm_compute. repeat split. Qed.

(** ** C6: the source catalogue *)

Lemma split_cons (c : ascii) (s : string) :
  exists w ws, Py.split c s = w :: ws.
Proof.
  induction s as [ | a s IH ]; cbn [Py.split].
  - eauto.
  - destruct (Ascii.eqb a c); [ eauto | ].
    destruct IH as (w & ws & ->). eauto.
Qed.

Lemma len_split_pos (c : ascii) (s : string) : 0 < Py.len (Py.split c s).
Proof.
  destruct (split_cons c s) as (w & ws & ->). unfold Py.len. cbn. lia.
Qed.

Lemma rows_cons (raw : string) (lines : list string) :
  rows (raw :: lines) =
  if is_data (Py.strip raw)
  then Py.split "," (Py.strip raw) :: rows lines
  else rows lines.
Proof.
  unfold rows. cbn [map filter]. destruct (is_data (Py.strip raw)); reflexivity.
Qed.

Lemma cat_loop_columns (lines : list string) (sources : list (list string))
    (n : Z) :
  0 < n ->
  cat_loop lines (sources, n) =
  if uniform n (rows lines)
  then ret ((sources ++ map (map Py.strip) (rows lines))%list, n)
  else exit_error columns_error.
Proof.
  intros Hn. revert sources.
  induction lines as [ | raw lines IH ]; intros sources.
  - cbn. rewrite app_nil_r. reflexivity.
  - rewrite rows_cons. cbn [cat_loop]. unfold cat_line.
    fold (is_data (Py.strip raw)). destruct (is_data (Py.strip raw)).
    + cbn [uniform forallb map]. fold (uniform n (rows lines)).
      rewrite (Z.eqb_sym (Py.len _) n).
      destruct (Z.eqb_spec n (Py.len (Py.split "," (Py.strip raw)))) as [E | E];
        cbn [negb andb].
      * rewrite !bind_ret, IH, <- app_assoc. reflexivity.
      * destruct (Z.gtb_spec n 0); [ reflexivity | lia ].
    + rewrite bind_ret. apply IH.
Qed.

Lemma cat_loop_first (lines : list string) (sources : list (list string)) :
  cat_loop lines (sources, 0) =
  match rows lines with
  | [] => ret (sources, 0)
  | r :: rest =>
      if uniform (Py.len r) rest
      then ret ((sources ++ map (map Py.strip) (r :: rest))%list, Py.len r)
      else exit_error columns_error
  end.
Proof.
  induction lines as [ | raw lines IH ].
  - reflexivity.
  - rewrite rows_cons. cbn [cat_loop]. unfold cat_line.
    fold (is_data (Py.strip raw)). destruct (is_data (Py.strip raw)).
    + pose proof (len_split_pos "," (Py.strip raw)) as Hpos.
      destruct (Z.eqb_spec 0 (Py.len (Py.split "," (Py.strip raw))));
        [ lia | ].
      cbn [negb]. destruct (Z.gtb_spec 0 0); [ lia | ].
      rewrite !bind_ret, cat_loop_columns by assumption.
      destruct (uniform _ (rows lines)); [ | reflexivity ].
      rewrite <- app_assoc. reflexivity.
    + rewrite bind_ret. apply IH.
Qed.

Lemma uniform_true (n : Z) (rs : list (list string)) :
  uniform n rs = true <-> forall r, In r rs -> Py.len r = n.
Proof.
  unfold uniform. rewrite forallb_forall.
  split; intros H r Hr; specialize (H r Hr); lia.
Qed.

Lemma uniform_false (n : Z) (rs : list (list string)) :
  uniform n rs = false -> exists r, In r rs /\ Py.len r <> n.
Proof.
  induction rs as [ | r rs IH ]; cbn; [ discriminate | ].
  destruct (Z.eqb_spec (Py.len r) n) as [E | E]; cbn.
  - intros H. destruct (IH H) as (r' & Hin & Hne). eauto.
  - intros _. eauto.
Qed.

(** C6.  Loading the catalogue ends the process with exit status 1 exactly
    when there is no data line (which includes a file that cannot be read),
    or some data line has a number of fields other than that of the first
    data line, or that number is not the number of cube axes plus one.  In
    that case nothing that follows it in the script is run.  In every
    other case it returns all rows in file order, each field trimmed. *)
Theorem read_catalogue_fatal_cases (w : world) (a : args) (naxes : Z) :
  (snd (read_catalogue w a naxes) = Exit 1 <->
   catalogue_fatal naxes (rows_of w))
  /\ (forall B (k : list (list string) -> run B),
        catalogue_fatal naxes (rows_of w) ->
        bind (read_catalogue w a naxes) k
        = (fst (read_catalogue w a naxes), Exit 1))
  /\ (~ catalogue_fatal naxes (rows_of w) ->
      read_catalogue w a naxes = ret (map (map Py.strip) (rows_of w))).
Proof.
  assert (snd (read_catalogue w a naxes) = Exit 1
          /\ catalogue_fatal naxes (rows_of w)
          \/ read_catalogue w a naxes = ret (map (map Py.strip) (rows_of w))
             /\ ~ catalogue_fatal naxes (rows_of w)) as Hcases.
  { unfold read_catalogue, rows_of, catalogue_fatal.
    destruct (cat_lines w) as [ lines | ].
    - rewrite cat_loop_first.
      destruct (rows lines) as [ | r rest ] eqn:Hrows.
      + left. split; [ reflexivity | left; reflexivity ].
      + cbn [hd]. destruct (uniform (Py.len r) rest) eqn:Hu.
        * cbn [try_except ret]. rewrite bind_done.
          cbn [app fst snd].
          destruct (Z.eqb_spec (Py.len (map (map Py.strip) (r :: rest))) 0)
            as [E | _]; [ unfold Py.len in E; cbn in E; lia | ].
          rewrite bind_ret.
          destruct (Z.eqb_spec (Py.len r) (naxes + 1)) as [E | E]; cbn [negb].
          -- right. split; [ rewrite bind_ret; reflexivity | ].
             intros [ H | [ (r' & Hin & Hne) | H ] ];
               [ discriminate | | contradiction ].
             apply Hne. destruct Hin as [ <- | Hin ]; [ reflexivity | ].
             apply (proj1 (uniform_true _ _) Hu). assumption.
          -- left. split; [ reflexivity | right; right; assumption ].
        * left. split; [ reflexivity | ].
          right. left. destruct (uniform_false _ _ Hu) as (r' & Hin & Hne).
          exists r'. split; [ right; assumption | assumption ].
    - left. split; [ reflexivity | left; reflexivity ]. }
  destruct Hcases as [ (Hexit & Hfatal) | (Hret & Hok) ].
  - split; [ tauto | ]. split; [ | tauto ].
    intros B k _. destruct (read_catalogue w a naxes) as [t o].
    cbn in Hexit. subst o. reflexivity.
  - split; [ | split; [ tauto | auto ] ].
    rewrite Hret. cbn. split; [ discriminate | tauto ].
Qed.

(** The rows of [demo_catalogue] for the four axes of [demo_cube]; a
    catalogue that mixes rows of three and four fields, which is refused
    (the [sys.exit] of line 165 is caught by the bare [except] of line 169,
    hence the second message); a catalogue that cannot be read; a
    catalogue of comments only; three fields for a cube of four axes. *)
Example read_catalogue_examples :
  read_catalogue demo_world demo_args 4
  = ret [["Source A/1"; "10.0"; "20.0"; "1.4e9"; "1"];
         ["far"; "1"; "2"; "3"; "4"]]
  /\ read_catalogue (with_catalogue demo_world (Some mixed_catalogue))
       demo_args 2
     = ([Stderr ("ERROR: " ++ columns_error ++ Py.nl);
         Stderr ("ERROR: Failed to read input catalogue: sources.txt" ++ Py.nl)],
        Exit 1)
  /\ snd (read_catalogue (with_catalogue demo_world None) demo_args 4) = Exit 1
  /\ snd (read_catalogue (with_catalogue demo_world (Some [ln "# none"]))
            demo_args 4) = Exit 1
  /\ snd (read_catalogue
            (with_catalogue demo_world (Some [ln "s1, 1, 2"])) demo_args 4)
     = Exit 1.
Proof. vm_compute. repeat split. Qed.

(** ** Strings and dicts *)

Lemma lstrip_head (s : string) :
  Py.lstrip s = EmptyString
  \/ exists c s', Py.lstrip s = String c s' /\ Py.isspace_char c = false.
Proof.
  induction s as [ | c s IH ]; cbn [Py.lstrip].
  - left. reflexivity.
  - destruct (Py.isspace_char c) eqn:E; [ assumption | ]. right. eauto.
Qed.

Lemma rstrip_head (c : ascii) (s : string) :
  Py.isspace_char c = false ->
  exists r, Py.rstrip (String c s) = String c r.
Proof.
  intros E. cbn [Py.rstrip]. destruct (Py.rstrip s); [ rewrite E | ]; eauto.
Qed.

Lemma rstrip_idempotent (s : string) : Py.rstrip (Py.rstrip s) = Py.rstrip s.
Proof.
  induction s as [ | c s IH ]; [ reflexivity | ].
  cbn [Py.rstrip]. destruct (Py.rstrip s) as [ | d r ] eqn:E.
  - destruct (Py.isspace_char c) eqn:Ec; [ reflexivity | ].
    cbn. rewrite Ec. reflexivity.
  - change (Py.rstrip (String c (String d r))) with
      (match Py.rstrip (String d r) with
       | EmptyString =>
           if Py.isspace_char c then EmptyString else String c EmptyString
       | r' => String c r'
       end).
    rewrite IH. reflexivity.
Qed.

Lemma strip_idempotent (s : string) : Py.strip (Py.strip s) = Py.strip s.
Proof.
  unfold Py.strip.
  destruct (lstrip_head s) as [ -> | (c & s' & -> & Hc) ]; [ reflexivity | ].
  destruct (rstrip_head c s' Hc) as (r & Hr). rewrite Hr.
  cbn [Py.lstrip]. rewrite Hc, <- Hr. apply rstrip_idempotent.
Qed.



Lemma find_absent_split1 (c : ascii) (s : string) :
  (Py.find c s <? 0) = true -> fst (Py.split1 c s) = s.
Proof.
  induction s as [ | a s IH ]; cbn [Py.find Py.split1]; [ reflexivity | ].
  destruct (Ascii.eqb a c); [ discriminate | ].
  destruct (Z.ltb_spec (Py.find c s) 0) as [Hlt | Hge].
  - intros _. destruct (Py.split1 c s) as [l r]. cbn in *.
    rewrite IH; reflexivity.
  - intros H. apply Z.ltb_lt in H. lia.
Qed.

Lemma get_set_same (k v : string) (d : Py.dict) :
  Py.get k (Py.set k v d) = Some v.
Proof.
  induction d as [ | [k' v'] d IH ]; cbn.
  - rewrite String.eqb_refl. reflexivity.
  - destruct (String.eqb k k') eqn:E; cbn; rewrite E; [ reflexivity | exact IH ].
Qed.

Lemma get_set_other (k k0 v : string) (d : Py.dict) :
  k <> k0 -> Py.get k (Py.set k0 v d) = Py.get k d.
Proof.
  intros Hne. induction d as [ | [k' v'] d IH ]; cbn.
  - destruct (String.eqb_spec k k0); [ contradiction | reflexivity ].
  - destruct (String.eqb_spec k0 k') as [ <- | Hk ]; cbn.
    + destruct (String.eqb_spec k k0); [ contradiction | reflexivity ].
    + rewrite IH. reflexivity.
Qed.

Lemma set_fresh (k v : string) (d : Py.dict) :
  ~ In k (Py.keys d) -> Py.set k v d = (d ++ [(k, v)])%list.
Proof.
  induction d as [ | [k' v'] d IH ]; cbn; intros Hk; [ reflexivity | ].
  destruct (String.eqb_spec k k') as [ -> | _ ]; [ tauto | ].
  rewrite IH by tauto. reflexivity.
Qed.

Lemma lookup_some (k v : string) (d : Py.dict) :
  Py.get k d = Some v -> lookup k d = ret v.
Proof. unfold lookup. intros ->. reflexivity. Qed.

Lemma lookup_none (k : string) (d : Py.dict) :
  Py.get k d = None -> lookup k d = raise (KeyError k).
Proof. unfold lookup. intros ->. reflexivity. Qed.

(** ** C4: the parameter file *)

Lemma par_line_entry (pars : Py.dict) (raw : string) :
  par_line pars raw =
  if well_formed raw then Py.set (fst (entry raw)) (snd (entry raw)) pars
  else pars.
Proof.
  unfold par_line, well_formed, entry.
  destruct (_ && _ && _); [ | reflexivity ].
  destruct (Py.split1 "=" (Py.strip raw)) as [key value]. cbn [fst snd].
  destruct (Py.strip value) as [ | c v ] eqn:Ev; cbn [Py.truthy].
  - reflexivity.
  - destruct (Py.find "#" (String c v) <? 0) eqn:Ef; [ | reflexivity ].
    rewrite (find_absent_split1 _ _ Ef), <- Ev, strip_idempotent.
    reflexivity.
Qed.

Lemma fold_par_line (lines : list string) (acc : Py.dict) :
  NoDup (Py.keys acc
         ++ map (fun raw => fst (entry raw)) (filter well_formed lines)) ->
  fold_left par_line lines acc
  = (acc ++ map entry (filter well_formed lines))%list.
Proof.
  revert acc. induction lines as [ | raw lines IH ]; intros acc Hnd.
  - cbn. rewrite app_nil_r. reflexivity.
  - cbn [fold_left filter] in *. rewrite par_line_entry.
    destruct (well_formed raw); [ | apply IH; assumption ].
    cbn [map] in *.
    rewrite set_fresh.
    + rewrite IH.
      * rewrite <- app_assoc. cbn. rewrite <- surjective_pairing. reflexivity.
      * unfold Py.keys in *. rewrite map_app, <- app_assoc. exact Hnd.
    + apply NoDup_remove_2 in Hnd. intros Hin. apply Hnd.
      apply in_or_app. left. assumption.
Qed.

(** C4 (as amended).  When the well-formed [key=value] lines of a template
    (blank lines and [#] comment lines left aside) have pairwise distinct
    keys, loading yields one entry per such line, in file order: the
    trimmed key, and the trimmed value with an inline [#] comment
    removed. *)
Theorem parse_pars_distinct_keys (lines : list string) :
  NoDup (map (fun raw => fst (entry raw)) (filter well_formed lines)) ->
  parse_pars lines = map entry (filter well_formed lines)
  /\ Py.len (parse_pars lines) = Py.len (filter well_formed lines).
Proof.
  intros Hnd. unfold parse_pars.
  rewrite (fold_par_line lines []) by exact Hnd. cbn [app].
  split; [ reflexivity | ]. unfold Py.len. rewrite length_map. reflexivity.
Qed.

Lemma parse_pars_distinct_keys_witness :
  parse_pars demo_template = map entry (filter well_formed demo_template)
  /\ Py.len (parse_pars demo_template)
     = Py.len (filter well_formed demo_template).
Proof.
  apply (parse_pars_distinct_keys demo_template).
  vm_compute.
  repeat (constructor; [ cbn; intuition discriminate | ]).
  constructor.
Defined.

Example parse_pars_demo :
  parse_pars demo_template =
  [("input.data", "cube.fits"); ("output.directory", EmptyString);
   ("output.filename", "cube_out"); ("output.writeCatASCII", "true")].
Proof. vm_compute. reflexivity. Qed.

(** C4 (as stated) fails.  Two well-formed lines that set the same key
    leave a single entry, with the value of the second line. *)
Lemma parse_pars_duplicate_key :
  Py.len (filter well_formed twice_template) = 2
  /\ parse_pars twice_template = [("a", "2")]
  /\ Py.len (parse_pars twice_template) = 1.
Proof. vm_compute. repeat split. Qed.

(** ** C7, C8, C9: the loop over the sources *)

Lemma suffix_sanitise (id : string) : suffix id = "_" ++ sanitise id.
Proof.
  unfold suffix. f_equal.
  induction id as [ | c id IH ]; cbn; [ reflexivity | ].
  rewrite IH. f_equal. unfold sanitise_char.
  destruct (Ascii.eqb c " "); reflexivity.
Qed.

Lemma run_sofia_writable (w : world) (a : args) (pars : Py.dict)
    (cat_names : list string) (id v : string) (r : region) :
  Py.get "output.filename" pars = Some v ->
  writable w tmp_file = true ->
  run_sofia w a pars cat_names id r
  = (run_events a pars v id r, Done (cat_names ++ [run_name v id])%list).
Proof.
  intros Hv Hw. unfold run_sofia, run_events, run_pars, run_name, print.
  rewrite bind_emit. cbn beta.
  rewrite (lookup_some _ _ _ (get_set_same _ _ _)), bind_ret, bind_emit.
  cbn beta.
  rewrite (lookup_some "output.filename" v)
    by (rewrite get_set_other by discriminate; exact Hv).
  rewrite bind_ret.
  destruct (Py.truthy v);
    rewrite (lookup_some _ _ _ (get_set_same _ _ _)), bind_ret, Hw;
    reflexivity.
Qed.

Lemma run_sofia_no_filename (w : world) (a : args) (pars : Py.dict)
    (cat_names : list string) (id : string) (r : region) :
  Py.get "output.filename" pars = None ->
  run_sofia w a pars cat_names id r
  = (processing_events id r, Uncaught (KeyError "output.filename")).
Proof.
  intros Hv. unfold run_sofia, print.
  rewrite bind_emit. cbn beta.
  rewrite (lookup_some _ _ _ (get_set_same _ _ _)), bind_ret, bind_emit.
  cbn beta.
  rewrite (lookup_none "output.filename")
    by (rewrite get_set_other by discriminate; exact Hv).
  reflexivity.
Qed.






Example derived_name_examples :
  derived_name "cube_out" "42" = "cube_out_42"
  /\ derived_name EmptyString "42" = "optifind_42"
  /\ derived_name "cube_out" "Source A/1" = "cube_out_Source_A-1".
Proof. repeat split. Qed.

Lemma process_source_rejected (w : world) (a : args) (pars : Py.dict)
    (c : cube) (axes : axes_t) (cat_names : list string) (id : string)
    (coords : list string) (r : region) :
  source_region w a c axes coords = ret r ->
  within_bounds a r = false ->
  process_source w a pars c axes cat_names (id :: coords)
  = ([skip_event id], Done cat_names).
Proof.
  intros Hr Hb. unfold process_source. rewrite Hr, bind_ret, Hb.
  reflexivity.
Qed.

Lemma process_source_accepted (w : world) (a : args) (pars : Py.dict)
    (c : cube) (axes : axes_t) (cat_names : list string) (id : string)
    (coords : list string) (r : region) :
  source_region w a c axes coords = ret r ->
  within_bounds a r = true ->
  process_source w a pars c axes cat_names (id :: coords)
  = run_sofia w a pars cat_names id r.
Proof.
  intros Hr Hb. unfold process_source. rewrite Hr, bind_ret, Hb.
  reflexivity.
Qed.

(** C8.  A source whose region is rejected is skipped, which is no error:
    its step of the loop prints the skip message and nothing else (no
    subprocess, no file), leaves the list of output names as it was and
    falls through, and the loop goes on with the remaining sources from
    that same list. *)
Theorem rejected_source_skipped (w : world) (a : args) (pars : Py.dict)
    (c : cube) (axes : axes_t) (cat_names : list string) (id : string)
    (coords : list string) (rest : list (list string)) (r : region) :
  source_region w a c axes coords = ret r ->
  within_bounds a r = false ->
  process_source w a pars c axes cat_names (id :: coords)
  = ([skip_event id], Done cat_names)
  /\ existsb is_system
       (fst (process_source w a pars c axes cat_names (id :: coords))) = false
  /\ sources_loop w a pars c axes ((id :: coords) :: rest) cat_names
     = (skip_event id :: fst (sources_loop w a pars c axes rest cat_names),
        snd (sources_loop w a pars c axes rest cat_names)).
Proof.
  intros Hr Hb.
  pose proof (process_source_rejected w a pars c axes cat_names id coords r
                Hr Hb) as Hstep.
  split; [ exact Hstep | ]. split; [ rewrite Hstep; reflexivity | ].
  cbn [sources_loop]. rewrite Hstep, bind_done. reflexivity.
Qed.

Lemma rejected_source_skipped_witness :
  process_source demo_world demo_args (parse_pars demo_template) demo_cube
    (0, 1, 2) ["cube_out_Source_A-1"] ("far" :: far_coords)
  = ([skip_event "far"], Done ["cube_out_Source_A-1"])
  /\ existsb is_system
       (fst (process_source demo_world demo_args (parse_pars demo_template)
               demo_cube (0, 1, 2) ["cube_out_Source_A-1"]
               ("far" :: far_coords))) = false
  /\ sources_loop demo_world demo_args (parse_pars demo_template) demo_cube
       (0, 1, 2) [("far" :: far_coords); ("far" :: far_coords)]
       ["cube_out_Source_A-1"]
     = (skip_event "far"
          :: fst (sources_loop demo_world demo_args (parse_pars demo_template)
                    demo_cube (0, 1, 2) [("far" :: far_coords)]
                    ["cube_out_Source_A-1"]),
        snd (sources_loop demo_world demo_args (parse_pars demo_template)
               demo_cube (0, 1, 2) [("far" :: far_coords)]
               ["cube_out_Source_A-1"])).
Proof.
  apply (rejected_source_skipped demo_world demo_args
           (parse_pars demo_template) demo_cube (0, 1, 2)
           ["cube_out_Source_A-1"] "far" far_coords
           [("far" :: far_coords)] far_region);
    vm_compute; reflexivity.
Defined.

Lemma sources_loop_no_filename (w : world) (a : args) (pars : Py.dict)
    (c : cube) (axes : axes_t) (sources : list (list string)) :
  Py.get "output.filename" pars = None ->
  Forall (fun src => exists r, converts w a c axes src r) sources ->
  Exists (fun src => exists r, converts w a c axes src r
                               /\ within_bounds a r = true) sources ->
  forall cat_names,
    snd (sources_loop w a pars c axes sources cat_names)
    = Uncaught (KeyError "output.filename")
    /\ existsb is_stderr (fst (sources_loop w a pars c axes sources cat_names))
       = false.
Proof.
  intros Hkey Hconv. induction Hconv as [ | src rest Hsrc Hrest IH ];
    intros Hex cat_names.
  - inversion Hex.
  - destruct Hsrc as (r & id & coords & -> & Hr).
    cbn [sources_loop].
    destruct (within_bounds a r) eqn:Hb.
    + rewrite (process_source_accepted _ _ _ _ _ _ _ _ _ Hr Hb).
      rewrite (run_sofia_no_filename _ _ _ _ _ _ Hkey).
      split; reflexivity.
    + rewrite (process_source_rejected _ _ _ _ _ _ _ _ _ Hr Hb), bind_done.
      cbn [fst snd app existsb is_stderr skip_event orb].
      apply IH. inversion Hex as [ ? ? (r' & (id' & coords' & Heq & Hr') & Hb')
                                 | ]; subst; [ | assumption ].
      injection Heq as <- <-. rewrite Hr in Hr'. injection Hr' as <-.
      congruence.
Qed.

(** C9.  Three template keys are read without a guard.  When every source
    converts, some source is accepted and the template has no
    [output.filename], the loop ends in an uncaught [KeyError]; when there
    is at least one output name and the template has no
    [output.directory], or has it but has no [output.writeCatASCII], the
    merge ends in an uncaught [KeyError].  In none of these cases is
    the [ERROR:] line of [exit_error] written. *)
Theorem template_keys_unguarded (w : world) (a : args) (pars : Py.dict)
    (c : cube) (axes : axes_t) (sources : list (list string))
    (cat_names : list string) :
  (Py.get "output.filename" pars = None ->
   Forall (fun src => exists r, converts w a c axes src r) sources ->
   Exists (fun src => exists r, converts w a c axes src r
                                /\ within_bounds a r = true) sources ->
   snd (sources_loop w a pars c axes sources cat_names)
   = Uncaught (KeyError "output.filename")
   /\ existsb is_stderr (fst (sources_loop w a pars c axes sources cat_names))
      = false)
  /\ (cat_names <> [] -> Py.get "output.directory" pars = None ->
      merge w pars cat_names = ([], Uncaught (KeyError "output.directory")))
  /\ (cat_names <> [] -> Py.get "output.directory" pars <> None ->
      Py.get "output.writeCatASCII" pars = None ->
      merge w pars cat_names
      = ([], Uncaught (KeyError "output.writeCatASCII"))).
Proof.
  split; [ | split ].
  - intros Hkey Hconv Hex.
    apply sources_loop_no_filename; assumption.
  - intros Hne Hdir. unfold merge.
    destruct cat_names; [ contradiction | ].
    rewrite (lookup_none _ _ Hdir). reflexivity.
  - intros Hne Hdir Hfmt. unfold merge.
    destruct cat_names; [ contradiction | ].
    destruct (Py.get "output.directory" pars) as [ d | ] eqn:E;
      [ | contradiction ].
    rewrite (lookup_some _ _ _ E), (lookup_none _ _ Hfmt).
    reflexivity.
Qed.

(** The whole script on the three templates: the interpreter stops on the
    [KeyError], after the two lines printed for the accepted source or
    after the loop, without any [ERROR:] line. *)
Example main_key_errors :
  main (world_of no_filename_template (fun _ => None)) demo_args
  = (processing_events "Source A/1" demo_region,
     Uncaught (KeyError "output.filename"))
  /\ snd (main (world_of no_directory_template (fun _ => None)) demo_args)
     = Uncaught (KeyError "output.directory")
  /\ snd (main (world_of no_format_template (fun _ => None)) demo_args)
     = Uncaught (KeyError "output.writeCatASCII")
  /\ existsb is_stderr
       (fst (main (world_of no_format_template (fun _ => None)) demo_args))
     = false.
Proof. vm_compute. repeat split. Qed.

(** ** C2, C3, C10: the merged catalogue *)

Lemma append_empty_r (s : string) : s ++ EmptyString = s.
Proof. induction s as [ | c s IH ]; cbn; [ | rewrite IH ]; reflexivity. Qed.

Lemma append_associative (s t u : string) : (s ++ t) ++ u = s ++ t ++ u.
Proof. induction s as [ | c s IH ]; cbn; [ | rewrite IH ]; reflexivity. Qed.

Lemma join_app (l1 l2 : list string) :
  join (l1 ++ l2) = join l1 ++ join l2.
Proof.
  induction l1 as [ | x l1 IH ]; cbn; [ reflexivity | ].
  fold (join (l1 ++ l2)) (join l1). rewrite IH, append_associative.
  reflexivity.
Qed.

Lemma merge_lines (need : bool) (lines : list string) (header content : string) :
  fold_left (merge_line need) lines (header, content)
  = (if need then header ++ join (filter is_hash lines) else header,
     content ++ join (filter is_body lines)).
Proof.
  revert header content.
  induction lines as [ | line lines IH ]; intros header content.
  - cbn. rewrite !append_empty_r. destruct need; reflexivity.
  - cbn [fold_left merge_line]. rewrite IH.
    destruct need; cbn [andb]; fold (is_hash line) (is_body line);
      cbn [filter]; destruct (is_hash line), (is_body line);
      cbn [join fold_right]; rewrite ?append_associative; reflexivity.
Qed.

Lemma truthy_join_hash (lines : list string) :
  Py.truthy (join (filter is_hash lines))
  = match filter is_hash lines with [] => false | _ :: _ => true end.
Proof.
  induction lines as [ | line lines IH ]; [ reflexivity | ].
  cbn [filter]. destruct (is_hash line) eqn:E; [ | exact IH ].
  cbn [join fold_right]. destruct line; [ discriminate | reflexivity ].
Qed.

Lemma merge_loop_closed (w : world) (output_dir : string)
    (cat_names : list string) (files : list (list string)) :
  readable w output_dir cat_names files ->
  forall header content,
    merge_loop w output_dir cat_names (header, content, false)
    = ret (header, content ++ join (body files), false).
Proof.
  intros Hread. induction Hread as [ | name f names files Hf Hrest IH ];
    intros header content.
  - cbn. rewrite append_empty_r. reflexivity.
  - cbn [merge_loop]. rewrite Hf. cbn [try_except ret].
    rewrite bind_done, merge_lines. cbn [andb app fst snd].
    rewrite IH. unfold body. cbn [flat_map ret].
    fold (body files). rewrite join_app, append_associative. reflexivity.
Qed.

Lemma merge_loop_open (w : world) (output_dir : string)
    (cat_names : list string) (files : list (list string)) :
  readable w output_dir cat_names files ->
  forall content,
    merge_loop w output_dir cat_names (EmptyString, content, true)
    = ret (join (first_header files), content ++ join (body files),
           still_needed files).
Proof.
  intros Hread. induction Hread as [ | name f names files Hf Hrest IH ];
    intros content.
  - cbn. rewrite append_empty_r. reflexivity.
  - cbn [merge_loop]. rewrite Hf. cbn [try_except ret].
    rewrite bind_done, merge_lines. cbn [andb app fst snd append].
    rewrite truthy_join_hash. unfold still_needed, body.
    cbn [first_header flat_map]. fold (body files).
    rewrite join_app, <- append_associative.
    destruct (filter is_hash f) as [ | h hs ] eqn:E.
    + cbn [join fold_right]. rewrite IH. reflexivity.
    + rewrite (merge_loop_closed w output_dir names files Hrest).
      reflexivity.
Qed.

Lemma merge_written (w : world) (pars : Py.dict) (cat_names : list string)
    (files : list (list string)) (d f : string) :
  cat_names <> [] ->
  Py.get "output.directory" pars = Some d ->
  Py.get "output.writeCatASCII" pars = Some f ->
  Py.truthy f = true ->
  readable w (with_slash d) cat_names files ->
  writable w (with_slash d ++ merged_name) = true ->
  merge w pars cat_names
  = ([creating_event (with_slash d);
      WriteFile (with_slash d ++ merged_name)
        ((join (first_header files) ++ Py.nl) ++ join (body files))],
     Done tt).
Proof.
  intros Hne Hd Hf Ht Hread Hw. unfold merge.
  destruct cat_names as [ | name names ]; [ contradiction | ].
  replace (negb (Py.len (name :: names) =? 0)) with true
    by (unfold Py.len; cbn; reflexivity).
  rewrite (lookup_some _ _ _ Hd), bind_ret, (lookup_some _ _ _ Hf), bind_ret.
  rewrite Ht. fold (with_slash d).
  rewrite bind_emit. cbn beta.
  rewrite (merge_loop_open w (with_slash d) _ files Hread), bind_ret, Hw.
  reflexivity.
Qed.

(** C3 (as amended).  When all catalogues of the runs can be read, the
    merged header is made of all the [#] lines, wherever they stand, of
    the first catalogue that has a [#] line (it is empty when none has
    one), the [#] lines of the later catalogues being dropped; and the
    merged body is made of every line that is neither blank nor a [#]
    line, of every catalogue, in the order of the runs. *)
Theorem merge_loop_header_and_body (w : world) (output_dir : string)
    (cat_names : list string) (files : list (list string)) :
  readable w output_dir cat_names files ->
  merge_loop w output_dir cat_names (EmptyString, EmptyString, true)
  = ret (join (first_header files), join (body files), still_needed files).
Proof.
  intros Hread.
  apply (merge_loop_open w output_dir cat_names files Hread EmptyString).
Qed.

Lemma merge_loop_header_and_body_witness :
  merge_loop three_world EmptyString three_names
    (EmptyString, EmptyString, true)
  = ret (join (first_header three_files), join (body three_files),
         still_needed three_files).
Proof.
  apply (merge_loop_header_and_body three_world EmptyString three_names
           three_files).
  repeat constructor.
Defined.

Example merge_three_files :
  join (first_header three_files) = ln "# h"
  /\ join (body three_files) = ln "1 1" ++ ln "2 2" ++ ln "3 3".
Proof. vm_compute. split; reflexivity. Qed.

(** C3 (as stated) fails.  In a catalogue made of a [#] line, a row, a
    second [#] line, a blank line and a last row, the run of leading [#]
    lines is the first line alone, but the merged header has both [#]
    lines. *)
Lemma merge_header_counterexample :
  merge_loop demo_world EmptyString ["cube_out_Source_A-1"]
    (EmptyString, EmptyString, true)
  = ret (ln "# h1" ++ ln "# h2", ln "1 2 3" ++ "4 5 6", false)
  /\ join (leading_hash demo_output) = ln "# h1"
  /\ ln "# h1" ++ ln "# h2" <> join (leading_hash demo_output).
Proof.
  split; [ vm_compute; reflexivity | ].
  split; [ vm_compute; reflexivity | ].
  vm_compute. discriminate.
Qed.

Lemma first_header_none (files : list (list string)) :
  (forall f, In f files -> filter is_hash f = []) -> first_header files = [].
Proof.
  induction files as [ | f files IH ]; intros Hnone; [ reflexivity | ].
  cbn [first_header]. rewrite (Hnone f) by (left; reflexivity).
  apply IH. intros f' Hin. apply Hnone. right. assumption.
Qed.

(** C10.  When the merge runs (there is an output name, the two template
    keys are there, the format value is not empty, all catalogues can be
    read and the merged file can be written) and no catalogue has a [#]
    line, the merged file is still written: it is a newline followed by
    the body rows of all catalogues, without any header. *)
Theorem merge_without_header (w : world) (pars : Py.dict)
    (cat_names : list string) (files : list (list string)) (d f : string) :
  cat_names <> [] ->
  Py.get "output.directory" pars = Some d ->
  Py.get "output.writeCatASCII" pars = Some f ->
  Py.truthy f = true ->
  readable w (with_slash d) cat_names files ->
  writable w (with_slash d ++ merged_name) = true ->
  (forall file, In file files -> filter is_hash file = []) ->
  merge w pars cat_names
  = ([creating_event (with_slash d);
      WriteFile (with_slash d ++ merged_name) (Py.nl ++ join (body files))],
     Done tt).
Proof.
  intros Hne Hd Hf Ht Hread Hw Hnone.
  rewrite (merge_written w pars cat_names files d f Hne Hd Hf Ht Hread Hw).
  rewrite (first_header_none files Hnone). reflexivity.
Qed.

Lemma merge_without_header_witness :
  merge bare_world (parse_pars demo_template) bare_names
  = ([creating_event (with_slash EmptyString);
      WriteFile (with_slash EmptyString ++ merged_name)
        (Py.nl ++ join (body bare_files))],
     Done tt).
Proof.
  apply (merge_without_header bare_world (parse_pars demo_template)
           bare_names bare_files EmptyString "true").
  - discriminate.
  - reflexivity.
  - reflexivity.
  - reflexivity.
  - repeat constructor.
  - reflexivity.
  - intros file [ <- | [ <- | [] ] ]; reflexivity.
Defined.

Example merge_bare_files :
  Py.nl ++ join (body bare_files) = Py.nl ++ ln "1 1" ++ ln "2 2" ++ "3 3".
Proof. vm_compute. reflexivity. Qed.

(** The part of C2 that holds: without any output name the merge does
    nothing, and so it does when the format value is empty. *)
Lemma merge_nothing_to_do (w : world) (pars : Py.dict)
    (cat_names : list string) (d : string) :
  merge w pars [] = ret tt
  /\ (Py.get "output.directory" pars = Some d ->
      Py.get "output.writeCatASCII" pars = Some EmptyString ->
      merge w pars cat_names = ret tt).
Proof.
  split; [ reflexivity | ]. intros Hd Hf. unfold merge.
  destruct (negb (Py.len cat_names =? 0)); [ | reflexivity ].
  rewrite (lookup_some _ _ _ Hd), bind_ret, (lookup_some _ _ _ Hf), bind_ret.
  reflexivity.
Qed.

(** C2, at the failing input.  The template switches the text catalogue
    off with [output.writeCatASCII = false]; the guard of line 234 tests
    the string, which is not empty, so the merge runs all the same.  With
    one accepted source and no text catalogue written by the finder, the
    script ends with the fatal error of line 248 and exit status 1; with a
    text catalogue of that name lying around, it writes the merged file. *)
Theorem merge_runs_with_ascii_off :
  Py.get "output.writeCatASCII" (parse_pars no_ascii_template) = Some "false"
  /\ snd (main no_ascii_world demo_args) = Exit 1
  /\ exit_status (snd (main no_ascii_world demo_args)) = 1
  /\ In (Stderr ("ERROR: Failed to read SoFiA 2 catalogue: "
                  ++ "optifind_Source_A-1_cat.txt" ++ Py.nl))
        (fst (main no_ascii_world demo_args))
  /\ snd (main stale_world demo_args) = Done tt
  /\ In (WriteFile merged_name
           ((ln "# h1" ++ ln "# h2") ++ Py.nl ++ ln "1 2 3" ++ "4 5 6"))
        (fst (main stale_world demo_args)).
Proof.
  split; [ vm_compute; reflexivity | ].
  split; [ vm_compute; reflexivity | ].
  split; [ vm_compute; reflexivity | ].
  split; [ vm_compute; tauto | ].
  split; [ vm_compute; reflexivity | ].
  vm_compute. tauto.
Qed.

(** ** The whole script on the demonstration inputs *)

(** A cube with the axes RA, DEC, FREQ and STOKES, radii 5 and 3, a
    catalogue of two sources: the first one is run, the second one is
    skipped, and the merged catalogue has the header lines and the rows of
    the one run. *)
Example main_demo :
  main demo_world demo_args
  = ((run_events demo_args (parse_pars demo_template) "cube_out" "Source A/1"
        demo_region
      ++ [skip_event "far";
          creating_event EmptyString;
          WriteFile merged_name
            ((ln "# h1" ++ ln "# h2") ++ Py.nl ++ ln "1 2 3" ++ "4 5 6")])%list,
     Done tt).
Proof. vm_compute. reflexivity. Qed.

(** * Further properties of the script *)

(** ** The resolved axes *)

Lemma vocabulary_disjoint (t : string) (r1 r2 : role) :
  In t (vocabulary r1) -> In t (vocabulary r2) -> r1 = r2.
Proof.
  intros H1 H2. apply role_of_vocabulary in H1, H2. congruence.
Qed.

Lemma last_match_position (r : role) (labels : list string) (i : Z) :
  last_match r labels i -> i <> -1 ->
  0 <= i < Py.len labels
  /\ exists t, nth_error labels (Z.to_nat i) = Some t /\ In t (vocabulary r).
Proof.
  intros [ [Hi _] | (Hi & (t & Ht & Hin) & _) ] Hne; [ contradiction | ].
  split; [ | eauto ].
  assert (nth_error labels (Z.to_nat i) <> None) as Hsome by congruence.
  apply nth_error_Some in Hsome. unfold Py.len. lia.
Qed.

Lemma resolve_axes_positions (labels : list string) (a0 a1 a2 : Z) :
  resolve_axes (Py.len labels) labels = ret (a0, a1, a2) ->
  (0 <= a0 < Py.len labels
   /\ exists t, nth_error labels (Z.to_nat a0) = Some t
                /\ In t (vocabulary Spatial1))
  /\ (0 <= a1 < Py.len labels
      /\ exists t, nth_error labels (Z.to_nat a1) = Some t
                   /\ In t (vocabulary Spatial2))
  /\ (0 <= a2 < Py.len labels
      /\ exists t, nth_error labels (Z.to_nat a2) = Some t
                   /\ In t (vocabulary Spectral)).
Proof.
  unfold resolve_axes, Py.range, Py.len. rewrite Nat2Z.id.
  pose proof (scan_axes_labels labels [] (-1, -1, -1)) as Hscan.
  cbn [app length Z.of_nat] in Hscan. rewrite Hscan, bind_ret. clear Hscan.
  assert (forall r, last_match r labels
                      (axis_of (scan_labels labels 0 (-1, -1, -1)) r)) as Hlast.
  { apply (scan_labels_last_match labels [] (-1, -1, -1)).
    intros r. left. split; [ destruct r; reflexivity | intros t [] ]. }
  cbn [length Z.of_nat]. destruct (scan_labels labels 0 (-1, -1, -1))
    as [[b0 b1] b2].
  destruct (Z.eqb_spec b0 (-1)); [ discriminate | ].
  destruct (Z.eqb_spec b1 (-1)); [ discriminate | ].
  destruct (Z.eqb_spec b2 (-1)); [ discriminate | ].
  cbn [orb]. intros [= <- <- <-].
  pose proof (last_match_position _ _ _ (Hlast Spatial1)) as H0.
  pose proof (last_match_position _ _ _ (Hlast Spatial2)) as H1.
  pose proof (last_match_position _ _ _ (Hlast Spectral)) as H2.
  cbn [axis_of] in H0, H1, H2. unfold Py.len in *. auto.
Qed.

(** X2.  When the axes resolve, the three positions are valid indices of
    the label list and pairwise different, so a cube with fewer than three
    axes never resolves. *)
Theorem resolved_axes_distinct (labels : list string) (a0 a1 a2 : Z) :
  resolve_axes (Py.len labels) labels = ret (a0, a1, a2) ->
  (0 <= a0 < Py.len labels /\ 0 <= a1 < Py.len labels
   /\ 0 <= a2 < Py.len labels)
  /\ (a0 <> a1 /\ a0 <> a2 /\ a1 <> a2)
  /\ 3 <= Py.len labels.
Proof.
  intros Hres.
  destruct (resolve_axes_positions labels a0 a1 a2 Hres)
    as ((R0 & t0 & N0 & V0) & (R1 & t1 & N1 & V1) & (R2 & t2 & N2 & V2)).
  assert (a0 <> a1) as D01.
  { intros ->. rewrite N0 in N1. injection N1 as ->.
    pose proof (vocabulary_disjoint _ _ _ V0 V1). discriminate. }
  assert (a0 <> a2) as D02.
  { intros ->. rewrite N0 in N2. injection N2 as ->.
    pose proof (vocabulary_disjoint _ _ _ V0 V2). discriminate. }
  assert (a1 <> a2) as D12.
  { intros ->. rewrite N1 in N2. injection N2 as ->.
    pose proof (vocabulary_disjoint _ _ _ V1 V2). discriminate. }
  repeat split; try assumption; lia.
Qed.

Lemma resolved_axes_distinct_witness :
  (0 <= 0 < Py.len (axis_type demo_cube)
   /\ 0 <= 1 < Py.len (axis_type demo_cube)
   /\ 0 <= 2 < Py.len (axis_type demo_cube))
  /\ (0 <> 1 /\ 0 <> 2 /\ 1 <> 2)
  /\ 3 <= Py.len (axis_type demo_cube).
Proof.
  apply (resolved_axes_distinct (axis_type demo_cube) 0 1 2).
  vm_compute. reflexivity.
Defined.

Lemma item_in_range {A} (l : list A) (i : Z) :
  0 <= i < Py.len l -> exists x, item l i = ret x.
Proof.
  intros Hi. unfold item, Py.index, Py.len in *.
  destruct (Z.ltb_spec i 0); [ lia | ].
  destruct (nth_error l (Z.to_nat i)) as [ x | ] eqn:E; [ eauto | ].
  apply nth_error_None in E. lia.
Qed.

Lemma lower_cases (p : float) (r : Z) :
  (exists z, lower p r = ret z)
  \/ lower p r = raise ValueError \/ lower p r = raise OverflowError.
Proof.
  unfold lower.
  destruct (floor_diff_cases p r) as [ (z & ->) | [ -> | -> ] ]; eauto.
  rewrite bind_ret. eauto.
Qed.

Lemma upper_cases (size : Z) (p : float) (r : Z) :
  (exists z, upper size p r = ret z)
  \/ upper size p r = raise ValueError
  \/ upper size p r = raise OverflowError.
Proof.
  unfold upper.
  destruct (ceil_sum_cases p r) as [ (z & ->) | [ -> | -> ] ]; eauto.
  rewrite bind_ret. eauto.
Qed.

(** X3.  For axes resolved from the labels of the cube, a cube that has
    one size per label and a conversion that returns one pixel coordinate
    per label, the region of a source is worked out without any index
    error: the step is the computation of lines 184-189 on three of the
    pixel coordinates and three of the sizes, which returns a region or
    stops on the [ValueError] or [OverflowError] of a floor or ceiling
    that is no integer. *)
Theorem source_region_defined (w : world) (a : args) (c : cube)
    (axes : axes_t) (coords : list string) (pix : list float) :
  resolve_axes (Py.len (axis_type c)) (axis_type c) = ret axes ->
  Py.len (axis_size c) = Py.len (axis_type c) ->
  world2pix w coords = Some pix ->
  Py.len pix = Py.len (axis_type c) ->
  exists px py pz sx sy sz,
    source_region w a c axes coords = work_out_region a px py pz sx sy sz
    /\ item pix (axis_of axes Spatial1) = ret px
    /\ item pix (axis_of axes Spatial2) = ret py
    /\ item pix (axis_of axes Spectral) = ret pz
    /\ item (axis_size c) (axis_of axes Spatial1) = ret sx
    /\ item (axis_size c) (axis_of axes Spatial2) = ret sy
    /\ item (axis_size c) (axis_of axes Spectral) = ret sz
    /\ ((exists r, source_region w a c axes coords = ret r)
        \/ source_region w a c axes coords = raise ValueError
        \/ source_region w a c axes coords = raise OverflowError).
Proof.
  intros Hres Hsize Hpix Hlen. destruct axes as [[a0 a1] a2].
  destruct (resolve_axes_positions _ _ _ _ Hres)
    as ((R0 & _) & (R1 & _) & (R2 & _)).
  rewrite <- Hlen in R0, R1, R2.
  destruct (item_in_range pix a0 R0) as (px & Hpx).
  destruct (item_in_range pix a1 R1) as (py & Hpy).
  destruct (item_in_range pix a2 R2) as (pz & Hpz).
  rewrite Hlen, <- Hsize in R0, R1, R2.
  destruct (item_in_range (axis_size c) a0 R0) as (sx & Hsx).
  destruct (item_in_range (axis_size c) a1 R1) as (sy & Hsy).
  destruct (item_in_range (axis_size c) a2 R2) as (sz & Hsz).
  exists px, py, pz, sx, sy, sz. cbn [axis_of].
  assert (source_region w a c (a0, a1, a2) coords
          = work_out_region a px py pz sx sy sz) as Heq.
  { unfold source_region, work_out_region. rewrite Hpix, bind_ret.
    rewrite Hpx, Hsx, Hpy, Hsy, Hpz, Hsz, !bind_ret.
    destruct (lower_cases px (radius_spat a)) as [ (? & ->) | [ -> | -> ] ];
      [ rewrite !bind_ret | reflexivity | reflexivity ].
    destruct (upper_cases sx px (radius_spat a)) as [ (? & ->) | [ -> | -> ] ];
      [ rewrite !bind_ret | reflexivity | reflexivity ].
    destruct (lower_cases py (radius_spat a)) as [ (? & ->) | [ -> | -> ] ];
      [ rewrite !bind_ret | reflexivity | reflexivity ].
    destruct (upper_cases sy py (radius_spat a)) as [ (? & ->) | [ -> | -> ] ];
      [ rewrite !bind_ret | reflexivity | reflexivity ].
    destruct (lower_cases pz (radius_spec a)) as [ (? & ->) | [ -> | -> ] ];
      [ rewrite !bind_ret | reflexivity | reflexivity ].
    destruct (upper_cases sz pz (radius_spec a)) as [ (? & ->) | [ -> | -> ] ];
      [ rewrite !bind_ret | reflexivity | reflexivity ].
    reflexivity. }
  split; [ exact Heq | ].
  repeat (split; [ assumption | ]).
  rewrite Heq. apply work_out_region_cases.
Qed.

Lemma source_region_defined_witness :
  exists px py pz sx sy sz,
    source_region demo_world demo_args demo_cube (0, 1, 2) far_coords
    = work_out_region demo_args px py pz sx sy sz
    /\ item [-100; 50; 25; 0]%float (axis_of (0, 1, 2) Spatial1) = ret px
    /\ item [-100; 50; 25; 0]%float (axis_of (0, 1, 2) Spatial2) = ret py
    /\ item [-100; 50; 25; 0]%float (axis_of (0, 1, 2) Spectral) = ret pz
    /\ item (axis_size demo_cube) (axis_of (0, 1, 2) Spatial1) = ret sx
    /\ item (axis_size demo_cube) (axis_of (0, 1, 2) Spatial2) = ret sy
    /\ item (axis_size demo_cube) (axis_of (0, 1, 2) Spectral) = ret sz
    /\ ((exists r,
           source_region demo_world demo_args demo_cube (0, 1, 2) far_coords
           = ret r)
        \/ source_region demo_world demo_args demo_cube (0, 1, 2) far_coords
           = raise ValueError
        \/ source_region demo_world demo_args demo_cube (0, 1, 2) far_coords
           = raise OverflowError).
Proof.
  apply (source_region_defined demo_world demo_args demo_cube (0, 1, 2)
           far_coords [-100; 50; 25; 0]%float);
    vm_compute; reflexivity.
Defined.

(** On the demonstration inputs the step returns the region of the far
    source; with a radius of 10^400 pixels it stops on the
    [OverflowError] of the conversion of the radius to a float. *)
Example source_region_values :
  source_region demo_world demo_args demo_cube (0, 1, 2) far_coords
  = ret far_region
  /\ source_region demo_world
       {| par_file := par_file demo_args;
          source_list := source_list demo_args;
          radius_spat := 10 ^ 400; radius_spec := 3;
          sofia_2_executable := sofia_2_executable demo_args |}
       demo_cube (0, 1, 2) far_coords
     = raise OverflowError.
Proof. vm_compute. split; reflexivity. Qed.

(** ** The loaded parameters *)

Lemma fold_par_line_entries (lines : list string) (acc : Py.dict) :
  fold_left par_line lines acc
  = fold_left (fun d e => Py.set (fst e) (snd e) d) (entries_of lines) acc.
Proof.
  revert acc. induction lines as [ | raw lines IH ]; intros acc;
    [ reflexivity | ].
  cbn [fold_left]. rewrite par_line_entry, IH. unfold entries_of.
  cbn [filter]. destruct (well_formed raw); reflexivity.
Qed.

Lemma get_set (k k0 v : string) (d : Py.dict) :
  Py.get k (Py.set k0 v d) = if String.eqb k k0 then Some v else Py.get k d.
Proof.
  destruct (String.eqb_spec k k0) as [ -> | Hne ].
  - apply get_set_same.
  - apply get_set_other. assumption.
Qed.

Lemma keys_set (k k0 v : string) (d : Py.dict) :
  In k (Py.keys (Py.set k0 v d)) <-> k = k0 \/ In k (Py.keys d).
Proof.
  induction d as [ | [k' v'] d IH ]; cbn.
  - intuition.
  - destruct (String.eqb_spec k0 k') as [ <- | Hne ]; cbn.
    + intuition.
    + rewrite IH. intuition.
Qed.

Lemma nodup_keys_set (k v : string) (d : Py.dict) :
  NoDup (Py.keys d) -> NoDup (Py.keys (Py.set k v d)).
Proof.
  induction d as [ | [k' v'] d IH ]; cbn; intros Hnd.
  - repeat constructor. intros [].
  - inversion Hnd as [ | ? ? Hnotin Hrest ]; subst.
    destruct (String.eqb_spec k k') as [ <- | Hne ]; cbn.
    + constructor; assumption.
    + constructor; [ | apply IH; assumption ].
      fold (Py.keys (Py.set k v d)). rewrite keys_set.
      intros [ -> | Hin ]; [ apply Hne; reflexivity | contradiction ].
Qed.

Lemma fold_set_get (k : string) (es : list (string * string)) (acc : Py.dict) :
  Py.get k (fold_left (fun d e => Py.set (fst e) (snd e) d) es acc)
  = match last_value k es with
    | Some x => Some x
    | None => Py.get k acc
    end.
Proof.
  revert acc. induction es as [ | [k' v] es IH ]; intros acc;
    [ reflexivity | ].
  cbn [fold_left last_value fst snd]. rewrite IH.
  destruct (last_value k es); [ reflexivity | ]. rewrite get_set.
  destruct (String.eqb k k'); reflexivity.
Qed.

Lemma fold_set_keys (k : string) (es : list (string * string)) (acc : Py.dict) :
  In k (Py.keys (fold_left (fun d e => Py.set (fst e) (snd e) d) es acc))
  <-> In k (Py.keys acc) \/ In k (map fst es).
Proof.
  revert acc. induction es as [ | [k' v] es IH ]; intros acc.
  - cbn. intuition.
  - cbn [fold_left map fst snd In]. rewrite IH, keys_set. intuition.
Qed.

Lemma fold_set_nodup (es : list (string * string)) (acc : Py.dict) :
  NoDup (Py.keys acc) ->
  NoDup (Py.keys (fold_left (fun d e => Py.set (fst e) (snd e) d) es acc)).
Proof.
  revert acc. induction es as [ | [k' v] es IH ]; intros acc Hnd;
    [ assumption | ].
  cbn [fold_left]. apply IH. apply nodup_keys_set. assumption.
Qed.

Lemma parse_pars_keys_spec (lines : list string) (k : string) :
  NoDup (Py.keys (parse_pars lines))
  /\ (In k (Py.keys (parse_pars lines)) <-> In k (map fst (entries_of lines))).
Proof.
  unfold parse_pars. rewrite fold_par_line_entries.
  split; [ apply fold_set_nodup; constructor | ].
  rewrite fold_set_keys. cbn. intuition.
Qed.

(** X4.  Whatever the template, the loaded parameters have no key twice;
    their keys are the keys of the well-formed lines; and looking a key up
    gives the value of the last well-formed line that sets it. *)
Theorem parse_pars_last_wins (lines : list string) (k : string) :
  NoDup (Py.keys (parse_pars lines))
  /\ (In k (Py.keys (parse_pars lines)) <-> In k (map fst (entries_of lines)))
  /\ Py.get k (parse_pars lines) = last_value k (entries_of lines).
Proof.
  unfold parse_pars. rewrite fold_par_line_entries.
  split; [ apply fold_set_nodup; constructor | ].
  split.
  - rewrite fold_set_keys. cbn. intuition.
  - rewrite fold_set_get. destruct (last_value k (entries_of lines));
      reflexivity.
Qed.

Example parse_pars_twice :
  Py.get "a" (parse_pars twice_template) = Some "2"
  /\ Py.get "b" (parse_pars twice_template) = None.
Proof. vm_compute. split; reflexivity. Qed.

Lemma read_pars_cases (w : world) (a : args) :
  match par_lines w with
  | None => read_pars w a = exit_error (par_file_error a)
  | Some lines =>
      if existsb well_formed lines
      then read_pars w a = ret (parse_pars lines) /\ parse_pars lines <> []
      else read_pars w a = exit_error no_pars_error
  end.
Proof.
  unfold read_pars. destruct (par_lines w) as [ lines | ]; [ | reflexivity ].
  cbn [try_except ret]. rewrite bind_done. cbn [app fst snd].
  destruct (existsb well_formed lines) eqn:Hex.
  - apply existsb_exists in Hex. destruct Hex as (raw & Hin & Hwf).
    assert (In (fst (entry raw)) (Py.keys (parse_pars lines))) as Hkey.
    { apply (proj2 (proj2 (parse_pars_keys_spec lines (fst (entry raw))))).
      unfold entries_of. apply in_map, in_map. apply filter_In.
      split; assumption. }
    destruct (parse_pars lines) as [ | kv d ] eqn:E; [ destruct Hkey | ].
    split; [ reflexivity | discriminate ].
  - assert (filter well_formed lines = []) as Hnone.
    { induction lines as [ | raw lines IH ]; [ reflexivity | ].
      cbn in Hex |- *. destruct (well_formed raw); [ discriminate | ].
      apply IH. assumption. }
    unfold parse_pars. rewrite fold_par_line_entries. unfold entries_of.
    rewrite Hnone. reflexivity.
Qed.

(** X5.  Reading the parameter file has three outcomes: the fatal error of
    line 130 when the file cannot be read, the fatal error of line 132
    when it has no well-formed line, and otherwise the parameters of its
    well-formed lines, which are then not empty. *)
Theorem read_pars_outcomes (w : world) (a : args) :
  match par_lines w with
  | None => read_pars w a = exit_error (par_file_error a)
  | Some lines =>
      if existsb well_formed lines
      then read_pars w a = ret (parse_pars lines) /\ parse_pars lines <> []
      else read_pars w a = exit_error no_pars_error
  end.
Proof. apply read_pars_cases. Qed.

Lemma contains_split1_fst (c : ascii) (s : string) :
  Py.contains c (fst (Py.split1 c s)) = false.
Proof.
  induction s as [ | a s IH ]; cbn; [ reflexivity | ].
  destruct (Ascii.eqb a c) eqn:E; [ reflexivity | ].
  destruct (Py.split1 c s) as [l r]. cbn in *. rewrite E. exact IH.
Qed.

Lemma contains_lstrip (c : ascii) (s : string) :
  Py.contains c s = false -> Py.contains c (Py.lstrip s) = false.
Proof.
  induction s as [ | a s IH ]; cbn [Py.lstrip]; [ trivial | ].
  destruct (Py.isspace_char a); [ | trivial ].
  cbn. intros H. apply orb_false_iff in H. apply IH. tauto.
Qed.

Lemma contains_rstrip (c : ascii) (s : string) :
  Py.contains c s = false -> Py.contains c (Py.rstrip s) = false.
Proof.
  induction s as [ | a s IH ]; cbn [Py.rstrip]; [ trivial | ].
  cbn [Py.contains]. intros H. apply orb_false_iff in H.
  destruct H as [Ha Hs]. specialize (IH Hs).
  destruct (Py.rstrip s) as [ | b r ].
  - destruct (Py.isspace_char a); cbn; [ reflexivity | ].
    rewrite Ha. reflexivity.
  - cbn [Py.contains] in *. rewrite Ha. exact IH.
Qed.

Lemma contains_strip (c : ascii) (s : string) :
  Py.contains c s = false -> Py.contains c (Py.strip s) = false.
Proof.
  intros H. unfold Py.strip. apply contains_rstrip, contains_lstrip, H.
Qed.

Lemma clean_entry_of (raw : string) : clean_entry (entry raw).
Proof.
  unfold clean_entry, entry.
  destruct (Py.split1 "=" (Py.strip raw)) as [key value] eqn:E.
  cbn [fst snd]. repeat split.
  - apply strip_idempotent.
  - apply contains_strip.
    replace key with (fst (Py.split1 "=" (Py.strip raw))) by (rewrite E; reflexivity).
    apply contains_split1_fst.
  - apply strip_idempotent.
  - apply contains_strip, contains_split1_fst.
Qed.

Lemma clean_set (k v : string) (d : Py.dict) :
  clean_entry (k, v) -> Forall clean_entry d -> Forall clean_entry (Py.set k v d).
Proof.
  intros Hkv Hd. induction Hd as [ | [k' v'] d Hkv' Hd IH ]; cbn.
  - apply Forall_cons; [ assumption | apply Forall_nil ].
  - destruct (String.eqb_spec k k') as [ <- | Hne ]; apply Forall_cons;
      assumption.
Qed.

(** X6.  Every loaded parameter is clean: its key and its value are
    trimmed, the key has no [=] and the value has no [#], so that no
    inline comment and no surrounding blank ever gets into a value. *)
Theorem parse_pars_clean (lines : list string) :
  Forall clean_entry (parse_pars lines)
  /\ forall k v, Py.get k (parse_pars lines) = Some v ->
                 Py.strip v = v /\ Py.contains "#" v = false.
Proof.
  assert (Forall clean_entry (parse_pars lines)) as Hclean.
  { unfold parse_pars. rewrite fold_par_line_entries.
    assert (forall acc, Forall clean_entry acc ->
              Forall clean_entry
                (fold_left (fun d e => Py.set (fst e) (snd e) d)
                   (entries_of lines) acc)) as H; [ | apply H; constructor ].
    unfold entries_of.
    induction (filter well_formed lines) as [ | raw l IH ]; intros acc Hacc;
      [ assumption | ].
    cbn [map fold_left]. apply IH. apply clean_set; [ | assumption ].
    rewrite <- surjective_pairing. apply clean_entry_of. }
  split; [ assumption | ].
  intros k v. induction Hclean as [ | [k' v'] d Hkv Hd IH ]; cbn;
    [ discriminate | ].
  destruct (String.eqb k k'); [ | assumption ].
  intros [= <-]. destruct Hkv as (_ & _ & Hs & Hc). split; assumption.
Qed.

Example parse_pars_inline_comment :
  parse_pars [ln "  key  =  some value   # and a comment # twice  "]
  = [("key", "some value")].
Proof. vm_compute. reflexivity. Qed.

(** ** The cube and the catalogue *)

Lemma read_cube_cases (w : world) (pars : Py.dict) :
  match Py.get "input.data" pars with
  | None => read_cube w pars = exit_error wcs_error
  | Some name =>
      match read_wcs w name with
      | None => read_cube w pars = exit_error wcs_error
      | Some c => read_cube w pars = ret c
      end
  end.
Proof.
  unfold read_cube, lookup.
  destruct (Py.get "input.data" pars) as [ name | ]; [ | reflexivity ].
  rewrite bind_ret. destruct (read_wcs w name); reflexivity.
Qed.

(** X7.  Unlike the three keys read later, a missing [input.data] is
    caught: for a template that loads, when the key is missing or the
    cube it names cannot be read, the whole script does nothing but write
    the fatal error of line 143 and end with exit status 1. *)
Theorem main_without_cube (w : world) (a : args) (lines : list string) :
  par_lines w = Some lines ->
  existsb well_formed lines = true ->
  match Py.get "input.data" (parse_pars lines) with
  | None => True
  | Some name => read_wcs w name = None
  end ->
  main w a = exit_error wcs_error.
Proof.
  intros Hlines Hwf Hcube. unfold main.
  pose proof (read_pars_cases w a) as Hpars. rewrite Hlines, Hwf in Hpars.
  destruct Hpars as [-> _]. rewrite bind_ret.
  pose proof (read_cube_cases w (parse_pars lines)) as Hc.
  destruct (Py.get "input.data" (parse_pars lines)) as [ name | ].
  - rewrite Hcube in Hc. rewrite Hc. reflexivity.
  - rewrite Hc. reflexivity.
Qed.

Lemma main_without_cube_witness :
  main (world_of [ln "output.filename = x"] (fun _ => None)) demo_args
  = exit_error wcs_error.
Proof.
  apply (main_without_cube (world_of [ln "output.filename = x"]
                              (fun _ => None))
           demo_args [ln "output.filename = x"]); reflexivity || exact I.
Defined.

Lemma read_catalogue_ret (w : world) (a : args) (naxes : Z)
    (sources : list (list string)) :
  read_catalogue w a naxes = ret sources ->
  exists lines,
    cat_lines w = Some lines
    /\ sources = map (map Py.strip) (rows lines)
    /\ rows lines <> []
    /\ uniform (naxes + 1) (rows lines) = true.
Proof.
  unfold read_catalogue.
  destruct (cat_lines w) as [ lines | ]; [ | discriminate ].
  rewrite cat_loop_first. intros H. exists lines.
  destruct (rows lines) as [ | r rest ]; [ discriminate | ].
  destruct (uniform (Py.len r) rest) eqn:Hu; [ | discriminate ].
  cbn [try_except ret] in H. rewrite bind_done in H. cbn [app fst snd] in H.
  destruct (Z.eqb_spec (Py.len (map (map Py.strip) (r :: rest))) 0);
    [ discriminate | ].
  rewrite bind_ret in H.
  destruct (Z.eqb_spec (Py.len r) (naxes + 1)) as [E | E]; cbn [negb] in H;
    [ | discriminate ].
  rewrite bind_ret in H. injection H as <-.
  split; [ reflexivity | ]. split; [ reflexivity | ].
  split; [ discriminate | ].
  cbn [uniform forallb]. fold (uniform (naxes + 1) rest).
  rewrite <- E, Hu, Z.eqb_refl. reflexivity.
Qed.

(** X8.  A catalogue that loads is never empty, and each of its rows is an
    id followed by exactly one coordinate per cube axis, every field
    trimmed; in particular the cube then has no negative number of axes
    and the loop over the sources always finds the id it prints. *)
Theorem read_catalogue_rows (w : world) (a : args) (naxes : Z)
    (sources : list (list string)) :
  read_catalogue w a naxes = ret sources ->
  sources <> [] /\ Forall (source_row naxes) sources /\ 0 <= naxes.
Proof.
  intros H. destruct (read_catalogue_ret w a naxes sources H)
    as (lines & _ & -> & Hne & Hu).
  pose proof (proj1 (uniform_true _ _) Hu) as Hlen.
  assert (Forall (source_row naxes) (map (map Py.strip) (rows lines))) as Hrows.
  { apply Forall_forall. intros src Hin. apply in_map_iff in Hin.
    destruct Hin as (r & <- & Hr). specialize (Hlen r Hr).
    unfold source_row. unfold Py.len in *. rewrite length_map.
    split; [ assumption | ]. split.
    - apply Forall_forall. intros field Hf. apply in_map_iff in Hf.
      destruct Hf as (x & <- & _). apply strip_idempotent.
    - destruct r as [ | id coords ]; cbn in Hlen |- *.
      + unfold rows in Hr. apply in_map_iff in Hr.
        destruct Hr as (line & Hsplit & _).
        destruct (split_cons "," line) as (x & xs & Hx). congruence.
      + exists (Py.strip id), (map Py.strip coords).
        split; [ reflexivity | ]. rewrite length_map. lia. }
  assert (forall r, In r (rows lines) -> 0 < Py.len r) as Hpos.
  { intros r Hr. unfold rows in Hr. apply in_map_iff in Hr.
    destruct Hr as (line & <- & _). apply len_split_pos. }
  revert Hne Hlen Hpos Hrows.
  destruct (rows lines) as [ | r rest ]; intros Hne Hlen Hpos Hrows;
    [ contradiction | ].
  split; [ discriminate | split; [ assumption | ] ].
  specialize (Hlen r (or_introl eq_refl)).
  specialize (Hpos r (or_introl eq_refl)). lia.
Qed.

Lemma read_catalogue_rows_witness :
  [["Source A/1"; "10.0"; "20.0"; "1.4e9"; "1"]; ["far"; "1"; "2"; "3"; "4"]]
  <> []
  /\ Forall (source_row 4)
       [["Source A/1"; "10.0"; "20.0"; "1.4e9"; "1"];
        ["far"; "1"; "2"; "3"; "4"]]
  /\ 0 <= 4.
Proof.
  apply (read_catalogue_rows demo_world demo_args 4).
  vm_compute. reflexivity.
Defined.

(** ** The runs *)

Lemma sanitise_clean (id : string) :
  Py.contains " " (sanitise id) = false
  /\ Py.contains "/" (sanitise id) = false
  /\ String.length (sanitise id) = String.length id
  /\ sanitise (sanitise id) = sanitise id.
Proof.
  induction id as [ | c id (IH1 & IH2 & IH3 & IH4) ]; [ repeat split | ].
  cbn [sanitise Py.contains String.length]. rewrite IH1, IH2, IH3, IH4.
  unfold sanitise_char.
  destruct (Ascii.eqb_spec c " ") as [ -> | H1 ]; [ repeat split | ].
  destruct (Ascii.eqb_spec c "/") as [ -> | H2 ]; [ repeat split | ].
  apply Ascii.eqb_neq in H1, H2. rewrite H1, H2. repeat split.
Qed.

Lemma sanitise_unchanged (id : string) :
  Py.contains " " id = false -> Py.contains "/" id = false -> sanitise id = id.
Proof.
  induction id as [ | c id IH ]; [ reflexivity | ].
  cbn [Py.contains sanitise]. intros H1 H2.
  apply orb_false_iff in H1, H2. destruct H1 as [H1 H1'], H2 as [H2 H2'].
  rewrite IH by assumption. unfold sanitise_char. rewrite H1, H2.
  reflexivity.
Qed.

(** X9.  The suffix that line 200 makes of a source id is an underscore
    followed by as many characters as the id has, none of them a space or
    a slash; an id without space and slash is kept as it is, and making
    the suffix of an id already sanitised changes nothing more, so that an
    id and its sanitised form give the same output name. *)
Theorem suffix_of_id (id : string) :
  Py.contains " " (suffix id) = false
  /\ Py.contains "/" (suffix id) = false
  /\ String.length (suffix id) = S (String.length id)
  /\ suffix (sanitise id) = suffix id
  /\ (Py.contains " " id = false -> Py.contains "/" id = false ->
      suffix id = "_" ++ id).
Proof.
  rewrite !suffix_sanitise.
  destruct (sanitise_clean id) as (H1 & H2 & H3 & H4).
  cbn [append Py.contains String.length]. rewrite H1, H2, H3, H4.
  repeat split. intros Hs Hl. rewrite sanitise_unchanged by assumption.
  reflexivity.
Qed.

Lemma keys_set_app (k v : string) (d : Py.dict) :
  Py.keys (Py.set k v d)
  = (Py.keys d ++ match Py.get k d with Some _ => [] | None => [k] end)%list.
Proof.
  induction d as [ | [k' v'] d IH ]; cbn; [ reflexivity | ].
  destruct (String.eqb k k'); cbn.
  - rewrite app_nil_r. reflexivity.
  - fold (Py.keys (Py.set k v d)) (Py.keys d). rewrite IH. reflexivity.
Qed.

(** X10.  The parameter file written for a run holds the template with
    three settings changed: [input.region] is the region of the source,
    [output.filename] the name of the run and [parameter.offset] is
    [true].  Every other key keeps the value of the template, the keys of
    the template keep their order, and the only keys added after them are
    [input.region] and [parameter.offset], when the template lacks them. *)
Theorem per_run_parameters (w : world) (a : args) (pars : Py.dict)
    (cat_names : list string) (id v k : string) (r : region) :
  Py.get "output.filename" pars = Some v ->
  writable w tmp_file = true ->
  exists d extra,
    In (WriteFile tmp_file (serialise d))
       (fst (run_sofia w a pars cat_names id r))
    /\ Py.get "input.region" d = Some (fmt_region r)
    /\ Py.get "output.filename" d = Some (run_name v id)
    /\ Py.get "parameter.offset" d = Some "true"
    /\ (k <> "input.region" -> k <> "output.filename" ->
        k <> "parameter.offset" -> Py.get k d = Py.get k pars)
    /\ Py.keys d = (Py.keys pars ++ extra)%list
    /\ incl extra ["input.region"; "parameter.offset"].
Proof.
  intros Hv Hw. exists (run_pars pars v id r).
  exists (match Py.get "input.region" pars with
          | Some _ => []
          | None => ["input.region"]
          end
          ++ match Py.get "parameter.offset" pars with
             | Some _ => []
             | None => ["parameter.offset"]
             end)%list.
  rewrite (run_sofia_writable w a pars cat_names id v r Hv Hw).
  unfold run_pars, run_events. cbn [fst].
  split; [ apply in_or_app; right; left; reflexivity | ].
  repeat rewrite get_set. cbn [String.eqb Ascii.eqb Bool.eqb andb].
  split; [ reflexivity | ]. split; [ reflexivity | ].
  split; [ reflexivity | ]. split.
  - intros H1 H2 H3.
    destruct (String.eqb_spec k "parameter.offset"); [ contradiction | ].
    destruct (String.eqb_spec k "output.filename"); [ contradiction | ].
    destruct (String.eqb_spec k "input.region"); [ contradiction | ].
    reflexivity.
  - rewrite !keys_set_app, !get_set. cbn [String.eqb Ascii.eqb Bool.eqb andb].
    rewrite Hv. rewrite app_nil_r, <- app_assoc. split; [ reflexivity | ].
    destruct (Py.get "input.region" pars), (Py.get "parameter.offset" pars);
      cbn; intros x Hx; cbn in Hx |- *; tauto.
Qed.

Lemma per_run_parameters_witness :
  exists d extra,
    In (WriteFile tmp_file (serialise d))
       (fst (run_sofia demo_world demo_args (parse_pars demo_template) []
               "Source A/1" demo_region))
    /\ Py.get "input.region" d = Some (fmt_region demo_region)
    /\ Py.get "output.filename" d = Some (run_name "cube_out" "Source A/1")
    /\ Py.get "parameter.offset" d = Some "true"
    /\ ("input.data" <> "input.region" -> "input.data" <> "output.filename" ->
        "input.data" <> "parameter.offset" ->
        Py.get "input.data" d = Py.get "input.data" (parse_pars demo_template))
    /\ Py.keys d = (Py.keys (parse_pars demo_template) ++ extra)%list
    /\ incl extra ["input.region"; "parameter.offset"].
Proof.
  apply (per_run_parameters demo_world demo_args (parse_pars demo_template)
           [] "Source A/1" "cube_out" "input.data" demo_region);
    reflexivity.
Defined.

Lemma loop_events_counts (a : args) (pars : Py.dict) (v : string)
    (sources : list (list string)) (regions : list region) :
  Py.len (filter is_system (loop_events a pars v sources regions))
  = 2 * Py.len (loop_names a v sources regions)
  /\ Py.len (filter is_write (loop_events a pars v sources regions))
     = Py.len (loop_names a v sources regions).
Proof.
  unfold Py.len. revert regions.
  induction sources as [ | [ | id coords ] sources IH ]; intros regions;
    [ split; reflexivity | split; reflexivity | ].
  destruct regions as [ | r regions ]; [ split; reflexivity | ].
  cbn [loop_events loop_names]. rewrite !filter_app, !length_app.
  destruct (IH regions) as [IHs IHw].
  destruct (within_bounds a r);
    unfold run_events, processing_events, skip_event;
    cbn [app filter is_system is_write length]; lia.
Qed.

Lemma sources_loop_trace (w : world) (a : args) (pars : Py.dict) (c : cube)
    (axes : axes_t) (v : string) (sources : list (list string))
    (regions : list region) (cat_names : list string) :
  Py.get "output.filename" pars = Some v ->
  writable w tmp_file = true ->
  Forall2 (converts w a c axes) sources regions ->
  sources_loop w a pars c axes sources cat_names
  = (loop_events a pars v sources regions,
     Done (cat_names ++ loop_names a v sources regions)%list).
Proof.
  intros Hv Hw Hconv. revert cat_names.
  induction Hconv as [ | src r sources regions Hsrc Hrest IH ];
    intros cat_names.
  - cbn. rewrite app_nil_r. reflexivity.
  - destruct Hsrc as (id & coords & -> & Hr).
    cbn [sources_loop loop_events loop_names].
    destruct (within_bounds a r) eqn:Hb.
    + rewrite (process_source_accepted _ _ _ _ _ _ _ _ _ Hr Hb).
      rewrite (run_sofia_writable _ _ _ _ _ _ _ Hv Hw), bind_done, IH.
      cbn [fst snd]. rewrite <- app_assoc. reflexivity.
    + rewrite (process_source_rejected _ _ _ _ _ _ _ _ _ Hr Hb), bind_done, IH.
      reflexivity.
Qed.

(** X11.  When the template has an [output.filename] value, the temporary
    file can be written and every row converts, the loop over the sources
    goes through all rows and never stops: it returns the names it was
    given followed by one name per accepted row, in catalogue order, each
    made from the value of the template (a run never changes the template
    the next run starts from); the finder is started once per accepted
    row, after one write of the temporary file, which is removed again. *)
Theorem sources_loop_runs (w : world) (a : args) (pars : Py.dict) (c : cube)
    (axes : axes_t) (v : string) (sources : list (list string))
    (regions : list region) (cat_names : list string) :
  Py.get "output.filename" pars = Some v ->
  writable w tmp_file = true ->
  Forall2 (converts w a c axes) sources regions ->
  sources_loop w a pars c axes sources cat_names
  = (loop_events a pars v sources regions,
     Done (cat_names ++ loop_names a v sources regions)%list)
  /\ Py.len (filter is_system (loop_events a pars v sources regions))
     = 2 * Py.len (loop_names a v sources regions)
  /\ Py.len (filter is_write (loop_events a pars v sources regions))
     = Py.len (loop_names a v sources regions).
Proof.
  intros Hv Hw Hconv.
  split; [ apply sources_loop_trace; assumption | apply loop_events_counts ].
Qed.

Lemma sources_loop_runs_witness :
  sources_loop demo_world demo_args (parse_pars demo_template) demo_cube
    (0, 1, 2)
    [["Source A/1"; "10.0"; "20.0"; "1.4e9"; "1"]; "far" :: far_coords] []
  = (loop_events demo_args (parse_pars demo_template) "cube_out"
       [["Source A/1"; "10.0"; "20.0"; "1.4e9"; "1"]; "far" :: far_coords]
       [demo_region; far_region],
     Done ([] ++ loop_names demo_args "cube_out"
                   [["Source A/1"; "10.0"; "20.0"; "1.4e9"; "1"];
                    "far" :: far_coords]
                   [demo_region; far_region])%list)
  /\ Py.len (filter is_system
               (loop_events demo_args (parse_pars demo_template) "cube_out"
                  [["Source A/1"; "10.0"; "20.0"; "1.4e9"; "1"];
                   "far" :: far_coords]
                  [demo_region; far_region]))
     = 2 * Py.len (loop_names demo_args "cube_out"
                     [["Source A/1"; "10.0"; "20.0"; "1.4e9"; "1"];
                      "far" :: far_coords]
                     [demo_region; far_region])
  /\ Py.len (filter is_write
               (loop_events demo_args (parse_pars demo_template) "cube_out"
                  [["Source A/1"; "10.0"; "20.0"; "1.4e9"; "1"];
                   "far" :: far_coords]
                  [demo_region; far_region]))
     = Py.len (loop_names demo_args "cube_out"
                 [["Source A/1"; "10.0"; "20.0"; "1.4e9"; "1"];
                  "far" :: far_coords]
                 [demo_region; far_region]).
Proof.
  apply (sources_loop_runs demo_world demo_args (parse_pars demo_template)
           demo_cube (0, 1, 2) "cube_out").
  - reflexivity.
  - reflexivity.
  - constructor; [ | constructor; [ | constructor ] ].
    + exists "Source A/1", ["10.0"; "20.0"; "1.4e9"; "1"].
      split; [ reflexivity | vm_compute; reflexivity ].
    + exists "far", far_coords.
      split; [ reflexivity | vm_compute; reflexivity ].
Defined.

Example loop_names_demo :
  loop_names demo_args "cube_out"
    [["Source A/1"; "10.0"; "20.0"; "1.4e9"; "1"]; "far" :: far_coords]
    [demo_region; far_region]
  = ["cube_out_Source_A-1"].
Proof. vm_compute. reflexivity. Qed.

(** X12.  When the temporary parameter file cannot be written, the run of
    an accepted source ends the script with the fatal error of line 216
    and exit status 1, after the two lines printed for the source; the
    finder is not started and no output name is recorded. *)
Theorem temp_file_unwritable (w : world) (a : args) (pars : Py.dict)
    (cat_names : list string) (id v : string) (r : region) :
  Py.get "output.filename" pars = Some v ->
  writable w tmp_file = false ->
  run_sofia w a pars cat_names id r
  = ((processing_events id r
      ++ [Stderr ("ERROR: " ++ tmp_error ++ Py.nl)])%list, Exit 1)
  /\ existsb is_system (fst (run_sofia w a pars cat_names id r)) = false.
Proof.
  intros Hv Hw.
  assert (run_sofia w a pars cat_names id r
          = ((processing_events id r
              ++ [Stderr ("ERROR: " ++ tmp_error ++ Py.nl)])%list, Exit 1))
    as Hrun.
  { unfold run_sofia, print.
    rewrite bind_emit. cbn beta.
    rewrite (lookup_some _ _ _ (get_set_same _ _ _)), bind_ret, bind_emit.
    cbn beta.
    rewrite (lookup_some "output.filename" v)
      by (rewrite get_set_other by discriminate; exact Hv).
    rewrite bind_ret.
    destruct (Py.truthy v);
      rewrite (lookup_some _ _ _ (get_set_same _ _ _)), bind_ret, Hw;
      reflexivity. }
  split; [ exact Hrun | ]. rewrite Hrun. reflexivity.
Qed.

Lemma temp_file_unwritable_witness :
  run_sofia (read_only demo_world)
    demo_args (parse_pars demo_template) [] "s" demo_region
  = ((processing_events "s" demo_region
      ++ [Stderr ("ERROR: " ++ tmp_error ++ Py.nl)])%list, Exit 1)
  /\ existsb is_system
       (fst (run_sofia
               (read_only demo_world)
               demo_args (parse_pars demo_template) [] "s" demo_region))
     = false.
Proof.
  apply (temp_file_unwritable
           (read_only demo_world)
           demo_args (parse_pars demo_template) [] "s" "cube_out"
           demo_region); reflexivity.
Defined.

Lemma sources_loop_rejected (w : world) (a : args) (pars : Py.dict) (c : cube)
    (axes : axes_t) (sources : list (list string)) (cat_names : list string) :
  Forall (fun src => exists r, converts w a c axes src r
                               /\ within_bounds a r = false) sources ->
  sources_loop w a pars c axes sources cat_names
  = (map skip_event (ids sources), Done cat_names).
Proof.
  intros Hall. induction Hall as [ | src sources Hsrc Hrest IH ];
    [ reflexivity | ].
  destruct Hsrc as (r & (id & coords & -> & Hr) & Hb).
  cbn [sources_loop]. rewrite (process_source_rejected _ _ _ _ _ _ _ _ _ Hr Hb).
  rewrite bind_done, IH. reflexivity.
Qed.

(** X13.  When every row of the catalogue converts and is rejected, the
    rest of the script prints one skip message per row and ends normally:
    no finder is started, nothing is written and no template key is looked
    up, so that even a template without any [output] key is fine. *)
Theorem all_sources_rejected (w : world) (a : args) (pars : Py.dict)
    (c : cube) (axes : axes_t) (sources : list (list string)) :
  Forall (fun src => exists r, converts w a c axes src r
                               /\ within_bounds a r = false) sources ->
  bind (sources_loop w a pars c axes sources []) (merge w pars)
  = (map skip_event (ids sources), Done tt).
Proof.
  intros Hall. rewrite (sources_loop_rejected _ _ _ _ _ _ _ Hall), bind_done.
  cbn. rewrite app_nil_r. reflexivity.
Qed.

Lemma all_sources_rejected_witness :
  bind (sources_loop demo_world demo_args [] demo_cube (0, 1, 2)
          ["far" :: far_coords; "off" :: far_coords] [])
       (merge demo_world [])
  = (map skip_event (ids ["far" :: far_coords; "off" :: far_coords]),
     Done tt).
Proof.
  apply (all_sources_rejected demo_world demo_args [] demo_cube (0, 1, 2)).
  constructor; [ | constructor; [ | constructor ] ].
  - exists far_region. split; [ | reflexivity ].
    exists "far", far_coords. split; [ reflexivity | vm_compute; reflexivity ].
  - exists far_region. split; [ | reflexivity ].
    exists "off", far_coords. split; [ reflexivity | vm_compute; reflexivity ].
Defined.

(** ** The merge *)

Lemma merge_loop_prefix (w : world) (output_dir : string)
    (pre rest : list string) (files : list (list string)) :
  readable w output_dir pre files ->
  forall st, exists st',
    merge_loop w output_dir (pre ++ rest) st = merge_loop w output_dir rest st'.
Proof.
  intros Hread. induction Hread as [ | name f names files Hf Hrest IH ];
    intros st.
  - exists st. reflexivity.
  - destruct st as [[header content] need]. cbn [app merge_loop].
    rewrite Hf. cbn [try_except ret]. rewrite bind_done, merge_lines.
    cbn [app fst snd]. rewrite run_eta. apply IH.
Qed.

Lemma merge_loop_unreadable (w : world) (output_dir name : string)
    (post : list string) (st : merge_state) :
  out_lines w (cat_path output_dir name) = None ->
  merge_loop w output_dir (name :: post) st
  = exit_error (merge_read_error (cat_path output_dir name)).
Proof.
  intros Hnone. destruct st as [[header content] need].
  cbn [merge_loop]. rewrite Hnone. reflexivity.
Qed.

(** X14.  When the merge runs and the catalogue of some run cannot be
    read, the catalogues of the runs before it being there, the script
    ends with the fatal error of line 248 that names the missing file and
    with exit status 1: the merged catalogue is not written, not even from
    the catalogues read so far. *)
Theorem merge_read_failure (w : world) (pars : Py.dict)
    (pre post : list string) (name : string) (files : list (list string))
    (d f : string) :
  Py.get "output.directory" pars = Some d ->
  Py.get "output.writeCatASCII" pars = Some f ->
  Py.truthy f = true ->
  readable w (with_slash d) pre files ->
  out_lines w (cat_path (with_slash d) name) = None ->
  merge w pars (pre ++ name :: post)
  = ([creating_event (with_slash d);
      Stderr ("ERROR: " ++ merge_read_error (cat_path (with_slash d) name)
              ++ Py.nl)],
     Exit 1)
  /\ existsb is_write (fst (merge w pars (pre ++ name :: post))) = false.
Proof.
  intros Hd Hf Ht Hread Hnone.
  assert (merge w pars (pre ++ name :: post)
          = ([creating_event (with_slash d);
              Stderr ("ERROR: "
                      ++ merge_read_error (cat_path (with_slash d) name)
                      ++ Py.nl)], Exit 1)) as Hmerge.
  { unfold merge.
    replace (negb (Py.len (pre ++ name :: post) =? 0)) with true
      by (unfold Py.len; rewrite length_app; cbn [length];
          destruct (Z.eqb_spec (Z.of_nat (length pre + S (length post))) 0);
          [ lia | reflexivity ]).
    rewrite (lookup_some _ _ _ Hd), bind_ret, (lookup_some _ _ _ Hf), bind_ret.
    rewrite Ht. fold (with_slash d). rewrite bind_emit. cbn beta.
    destruct (merge_loop_prefix w (with_slash d) pre (name :: post) files
                Hread (EmptyString, EmptyString, true)) as (st' & ->).
    rewrite (merge_loop_unreadable _ _ _ _ _ Hnone). reflexivity. }
  split; [ exact Hmerge | rewrite Hmerge; reflexivity ].
Qed.

Lemma merge_read_failure_witness :
  merge three_world (parse_pars demo_template) (["a"; "b"] ++ "x" :: ["c"])
  = ([creating_event (with_slash EmptyString);
      Stderr ("ERROR: "
              ++ merge_read_error (cat_path (with_slash EmptyString) "x")
              ++ Py.nl)],
     Exit 1)
  /\ existsb is_write
       (fst (merge three_world (parse_pars demo_template)
               (["a"; "b"] ++ "x" :: ["c"]))) = false.
Proof.
  apply (merge_read_failure three_world (parse_pars demo_template)
           ["a"; "b"] ["c"] "x" [[ln "1 1"]; [ln "# h"; ln "2 2"]]
           EmptyString "true").
  - reflexivity.
  - reflexivity.
  - reflexivity.
  - repeat constructor.
  - reflexivity.
Defined.

(** X15.  When the merge runs and all catalogues of the runs can be read,
    the merged catalogue is written under the output directory, which gets
    a closing slash when it is not empty and has none: it holds the
    header, a newline and the body, in one file.  When that file cannot be
    written, the script ends with the fatal error of line 258 and exit
    status 1 instead. *)
Theorem merge_outcomes (w : world) (pars : Py.dict) (cat_names : list string)
    (files : list (list string)) (d f : string) :
  cat_names <> [] ->
  Py.get "output.directory" pars = Some d ->
  Py.get "output.writeCatASCII" pars = Some f ->
  Py.truthy f = true ->
  readable w (with_slash d) cat_names files ->
  merge w pars cat_names
  = if writable w (with_slash d ++ merged_name)
    then ([creating_event (with_slash d);
           WriteFile (with_slash d ++ merged_name)
             ((join (first_header files) ++ Py.nl) ++ join (body files))],
          Done tt)
    else ([creating_event (with_slash d);
           Stderr ("ERROR: " ++ merge_write_error ++ Py.nl)],
          Exit 1).
Proof.
  intros Hne Hd Hf Ht Hread.
  destruct (writable w (with_slash d ++ merged_name)) eqn:Hw.
  - apply (merge_written w pars cat_names files d f); assumption.
  - unfold merge.
    destruct cat_names as [ | name names ]; [ contradiction | ].
    replace (negb (Py.len (name :: names) =? 0)) with true
      by (unfold Py.len; cbn; reflexivity).
    rewrite (lookup_some _ _ _ Hd), bind_ret, (lookup_some _ _ _ Hf), bind_ret.
    rewrite Ht. fold (with_slash d). rewrite bind_emit. cbn beta.
    rewrite (merge_loop_open w (with_slash d) _ files Hread), bind_ret, Hw.
    reflexivity.
Qed.

Lemma merge_outcomes_witness :
  merge three_world (parse_pars demo_template) three_names
  = if writable three_world (with_slash EmptyString ++ merged_name)
    then ([creating_event (with_slash EmptyString);
           WriteFile (with_slash EmptyString ++ merged_name)
             ((join (first_header three_files) ++ Py.nl)
              ++ join (body three_files))],
          Done tt)
    else ([creating_event (with_slash EmptyString);
           Stderr ("ERROR: " ++ merge_write_error ++ Py.nl)],
          Exit 1).
Proof.
  apply (merge_outcomes three_world (parse_pars demo_template) three_names
           three_files EmptyString "true").
  - discriminate.
  - reflexivity.
  - reflexivity.
  - reflexivity.
  - repeat constructor.
Defined.

Lemma ends_with_snoc (c : ascii) (s : string) :
  Py.ends_with c (s ++ String c EmptyString) = true.
Proof.
  induction s as [ | a s IH ]; cbn [append Py.ends_with].
  - apply Ascii.eqb_refl.
  - destruct (s ++ String c EmptyString) eqn:E; [ | exact IH ].
    destruct s; discriminate.
Qed.

(** X16.  The output directory of line 232 is left empty when it is empty
    (the catalogues are then looked for in the working directory), is
    left as it is when it ends with a slash, and gets one slash added
    otherwise; so it is empty or ends with a slash, and doing it twice
    adds nothing. *)
Theorem output_dir_slash (d : string) :
  (d = EmptyString -> with_slash d = EmptyString)
  /\ (Py.ends_with "/" d = true -> with_slash d = d)
  /\ (d <> EmptyString -> Py.ends_with "/" d = false ->
      with_slash d = d ++ "/")
  /\ (with_slash d = EmptyString \/ Py.ends_with "/" (with_slash d) = true)
  /\ with_slash (with_slash d) = with_slash d.
Proof.
  assert (Py.ends_with "/" d = true -> with_slash d = d) as Hends.
  { intros H. unfold with_slash. rewrite H, andb_false_r. reflexivity. }
  assert (d <> EmptyString -> Py.ends_with "/" d = false ->
          with_slash d = d ++ "/") as Hadd.
  { intros Hne H. unfold with_slash. rewrite H.
    destruct d; [ contradiction | reflexivity ]. }
  split; [ intros ->; reflexivity | ].
  split; [ exact Hends | ]. split; [ exact Hadd | ].
  destruct d as [ | a d ]; [ split; [ left | ]; reflexivity | ].
  destruct (Py.ends_with "/" (String a d)) eqn:E.
  - rewrite (Hends eq_refl). split; [ right; exact E | ].
    unfold with_slash. rewrite E, andb_false_r. reflexivity.
  - rewrite (Hadd ltac:(discriminate) eq_refl).
    pose proof (ends_with_snoc "/" (String a d)) as Hs.
    split; [ right; exact Hs | ].
    unfold with_slash. rewrite Hs, andb_false_r. reflexivity.
Qed.

(** ** The command line *)

Lemma write_all_trace (texts : list string) :
  write_all texts = (map Stdout texts, Done tt).
Proof.
  induction texts as [ | text texts IH ]; [ reflexivity | ].
  cbn [write_all map]. rewrite bind_emit, IH. reflexivity.
Qed.

Lemma no_stderr_in_stdout (texts : list string) :
  existsb is_stderr (map Stdout texts) = false.
Proof. induction texts as [ | text texts IH ]; [ reflexivity | exact IH ]. Qed.

(** X17.  Called with fewer than four arguments after its own name, the
    script writes the usage text on the standard output, nothing on the
    error stream, and ends with exit status 0 without looking at any
    file or at the arguments it was given. *)
Theorem usage_on_few_arguments (w : world) (argv : list string) :
  Py.len argv < 5 ->
  script w argv = (map Stdout usage_text, Exit 0)
  /\ exit_status (snd (script w argv)) = 0
  /\ existsb is_stderr (fst (script w argv)) = false.
Proof.
  intros Hlen.
  assert (script w argv = (map Stdout usage_text, Exit 0)) as Hrun.
  { unfold script. destruct (Z.ltb_spec (Py.len argv) 5); [ | lia ].
    unfold print_instructions. rewrite write_all_trace.
    rewrite bind_done. cbn [sys_exit fst snd]. rewrite app_nil_r.
    reflexivity. }
  rewrite Hrun. cbn [fst snd exit_status].
  split; [ reflexivity | ]. split; [ reflexivity | ].
  apply no_stderr_in_stdout.
Qed.

Lemma usage_on_few_arguments_witness :
  script demo_world ["optifind.py"; "sofia.par"; "sources.txt"; "5"]
  = (map Stdout usage_text, Exit 0)
  /\ exit_status
       (snd (script demo_world
               ["optifind.py"; "sofia.par"; "sources.txt"; "5"])) = 0
  /\ existsb is_stderr
       (fst (script demo_world
               ["optifind.py"; "sofia.par"; "sources.txt"; "5"])) = false.
Proof.
  apply (usage_on_few_arguments demo_world
           ["optifind.py"; "sofia.par"; "sources.txt"; "5"]).
  vm_compute. reflexivity.
Defined.

Lemma script_five_arguments (prog p c rs rc : string)
    (more : list string) (k : unit -> run unit) :
  bind (if Py.len (prog :: p :: c :: rs :: rc :: more) <? 5
        then print_instructions ;;; sys_exit 0
        else ret tt) k
  = k tt.
Proof.
  destruct (Z.ltb_spec (Py.len (prog :: p :: c :: rs :: rc :: more)) 5)
    as [Hlt | _].
  - unfold Py.len in Hlt. cbn [length] in Hlt. lia.
  - apply bind_ret.
Qed.

(** X18.  With four arguments or more whose third and fourth are integer
    literals, the script is the pipeline for the parameter file, the
    catalogue and the two radii given; the finder is the fifth argument
    when there is one and [sofia] otherwise, and any further argument is
    ignored. *)
Theorem script_arguments (w : world) (prog p c rs rc : string)
    (more : list string) (r1 r2 : Z) :
  Py.int rs = Some r1 ->
  Py.int rc = Some r2 ->
  script w (prog :: p :: c :: rs :: rc :: more)
  = main w {| par_file := p; source_list := c;
              radius_spat := r1; radius_spec := r2;
              sofia_2_executable := hd "sofia" more |}.
Proof.
  intros H1 H2. unfold script. rewrite script_five_arguments.
  change (item (prog :: p :: c :: rs :: rc :: more) 3) with (ret rs).
  rewrite bind_ret. unfold to_int at 1. rewrite H1, bind_ret.
  change (item (prog :: p :: c :: rs :: rc :: more) 4) with (ret rc).
  rewrite bind_ret. unfold to_int at 1. rewrite H2, bind_ret.
  change (item (prog :: p :: c :: rs :: rc :: more) 1) with (ret p).
  change (item (prog :: p :: c :: rs :: rc :: more) 2) with (ret c).
  destruct more as [ | exe more ].
  - change (Py.len [prog; p; c; rs; rc] >? 5) with false. cbv iota.
    rewrite !bind_ret. reflexivity.
  - destruct (Z.gtb_spec (Py.len (prog :: p :: c :: rs :: rc :: exe :: more)) 5)
      as [ _ | Hle ].
    + change (item (prog :: p :: c :: rs :: rc :: exe :: more) 5)
        with (ret exe).
      rewrite !bind_ret. reflexivity.
    + unfold Py.len in Hle. cbn [length] in Hle. lia.
Qed.

Lemma script_arguments_witness :
  script demo_world
    ["optifind.py"; "sofia.par"; "sources.txt"; "5"; " 3"; "sofia2"; "x"]
  = main demo_world
      {| par_file := "sofia.par"; source_list := "sources.txt";
         radius_spat := 5; radius_spec := 3;
         sofia_2_executable := hd "sofia" ["sofia2"; "x"] |}.
Proof.
  apply (script_arguments demo_world "optifind.py" "sofia.par" "sources.txt"
           "5" " 3" ["sofia2"; "x"] 5 3); reflexivity.
Defined.

(** X19.  When the third or the fourth argument is not an integer literal
    (a decimal point or an exponent is enough), the script stops on the
    uncaught [ValueError] of [int] before it has read or printed
    anything: there is no usage text and no [ERROR:] line. *)
Theorem script_bad_radius (w : world) (prog p c rs rc : string)
    (more : list string) :
  Py.int rs = None \/ Py.int rc = None ->
  script w (prog :: p :: c :: rs :: rc :: more) = ([], Uncaught ValueError).
Proof.
  intros Hbad. unfold script. rewrite script_five_arguments.
  change (item (prog :: p :: c :: rs :: rc :: more) 3) with (ret rs).
  rewrite bind_ret.
  destruct (Py.int rs) as [ r1 | ] eqn:E1;
    [ | unfold to_int; rewrite E1; reflexivity ].
  unfold to_int at 1. rewrite E1, bind_ret.
  change (item (prog :: p :: c :: rs :: rc :: more) 4) with (ret rc).
  rewrite bind_ret. unfold to_int at 1.
  destruct Hbad as [ Hbad | Hbad ]; [ discriminate | ].
  rewrite Hbad. reflexivity.
Qed.

Lemma script_bad_radius_witness :
  script demo_world ["optifind.py"; "sofia.par"; "sources.txt"; "5"; "2.5"]
  = ([], Uncaught ValueError).
Proof.
  apply (script_bad_radius demo_world "optifind.py" "sofia.par" "sources.txt"
           "5" "2.5" []).
  right. reflexivity.
Defined.

(** ** Integers as text *)

Example int_examples :
  Py.int "42" = Some 42 /\ Py.int (" -7" ++ Py.nl) = Some (-7)
  /\ Py.int "1_000" = Some 1000 /\ Py.int "+5" = Some 5
  /\ Py.int "2.5" = None /\ Py.int "1e3" = None
  /\ Py.int EmptyString = None /\ Py.int "5_" = None
  /\ Py.int "- 5" = None
  /\ Py.int (String "160" "5") = Some 5
  /\ Py.int (String "133" "5") = Some 5
  /\ Py.int (String "028" "5") = None
  /\ Py.strip (String "028" "5") = "5".
Proof. vm_compute. repeat split. Qed.

(** A literal of 4300 digits is read, one of 4301 digits is refused. *)
Example int_digit_limit :
  Py.int (ones 4300) <> None /\ Py.int (ones 4301) = None.
Proof. vm_compute. split; [ discriminate | reflexivity ]. Qed.

(** ** The whole pipeline *)

(** X20.  When every stage goes through (the template loads and names a
    cube that can be read, the axes resolve, the catalogue loads, every
    row converts, the temporary file and the merged file can be written,
    at least one source is accepted, the format value is not empty and
    the catalogues of all runs are there), the script ends normally and
    its trace is exactly that of the loop over the sources followed by the
    announcement and the single write of the merged catalogue: nothing is
    printed or written before the first source. *)
Theorem main_end_to_end (w : world) (a : args) (lines : list string)
    (name : string) (c : cube) (axes : axes_t) (sources : list (list string))
    (regions : list region) (v d f : string) (files : list (list string)) :
  par_lines w = Some lines ->
  existsb well_formed lines = true ->
  Py.get "input.data" (parse_pars lines) = Some name ->
  read_wcs w name = Some c ->
  resolve_axes (Py.len (axis_size c)) (axis_type c) = ret axes ->
  read_catalogue w a (Py.len (axis_size c)) = ret sources ->
  Forall2 (converts w a c axes) sources regions ->
  Py.get "output.filename" (parse_pars lines) = Some v ->
  writable w tmp_file = true ->
  loop_names a v sources regions <> [] ->
  Py.get "output.directory" (parse_pars lines) = Some d ->
  Py.get "output.writeCatASCII" (parse_pars lines) = Some f ->
  Py.truthy f = true ->
  readable w (with_slash d) (loop_names a v sources regions) files ->
  writable w (with_slash d ++ merged_name) = true ->
  main w a
  = ((loop_events a (parse_pars lines) v sources regions
      ++ [creating_event (with_slash d);
          WriteFile (with_slash d ++ merged_name)
            ((join (first_header files) ++ Py.nl) ++ join (body files))])%list,
     Done tt).
Proof.
  intros Hlines Hwf Hdata Hwcs Haxes Hcat Hconv Hv Htmp Hnames Hd Hf Ht
    Hread Hw.
  unfold main.
  pose proof (read_pars_cases w a) as Hpars. rewrite Hlines, Hwf in Hpars.
  destruct Hpars as [-> _]. rewrite bind_ret.
  pose proof (read_cube_cases w (parse_pars lines)) as Hc.
  rewrite Hdata, Hwcs in Hc. rewrite Hc, bind_ret.
  rewrite Haxes, bind_ret, Hcat, bind_ret.
  rewrite (sources_loop_trace w a _ c axes v sources regions [] Hv Htmp Hconv).
  rewrite bind_done. cbn [app].
  rewrite (merge_written w _ _ files d f Hnames Hd Hf Ht Hread Hw).
  reflexivity.
Qed.

Lemma main_end_to_end_witness :
  main demo_world demo_args
  = ((loop_events demo_args (parse_pars demo_template) "cube_out"
        [["Source A/1"; "10.0"; "20.0"; "1.4e9"; "1"]; "far" :: far_coords]
        [demo_region; far_region]
      ++ [creating_event (with_slash EmptyString);
          WriteFile (with_slash EmptyString ++ merged_name)
            ((join (first_header [demo_output]) ++ Py.nl)
             ++ join (body [demo_output]))])%list,
     Done tt).
Proof.
  apply (main_end_to_end demo_world demo_args demo_template "cube.fits"
           demo_cube (0, 1, 2)
           [["Source A/1"; "10.0"; "20.0"; "1.4e9"; "1"]; "far" :: far_coords]
           [demo_region; far_region] "cube_out" EmptyString "true"
           [demo_output]).
  - reflexivity.
  - reflexivity.
  - reflexivity.
  - reflexivity.
  - vm_compute. reflexivity.
  - vm_compute. reflexivity.
  - constructor; [ | constructor; [ | constructor ] ].
    + exists "Source A/1", ["10.0"; "20.0"; "1.4e9"; "1"].
      split; [ reflexivity | vm_compute; reflexivity ].
    + exists "far", far_coords.
      split; [ reflexivity | vm_compute; reflexivity ].
  - reflexivity.
  - reflexivity.
  - vm_compute. discriminate.
  - reflexivity.
  - reflexivity.
  - reflexivity.
  - vm_compute. repeat constructor.
  - reflexivity.
Defined.

(** ** More on the catalogue and on the loop *)

(** X21.  What the script writes when it refuses a catalogue: one
    [ERROR:] line for a file that cannot be read, for a catalogue without
    data line and for a number of fields that does not fit the cube (the
    message then gives the number of axes and the number of coordinates
    found); but two lines for rows of different lengths, since the exit
    of line 165 is caught by the [except] of line 169, which reports a
    read failure on top.  An empty catalogue is reported as such whatever
    the cube. *)
Theorem read_catalogue_messages (w : world) (a : args) (naxes : Z) :
  read_catalogue w a naxes
  = match cat_lines w with
    | None => exit_error (cat_file_error a)
    | Some lines =>
        match rows lines with
        | [] => exit_error no_sources_error
        | r :: rest =>
            if uniform (Py.len r) rest then
              if Py.len r =? naxes + 1
              then ret (map (map Py.strip) (r :: rest))
              else exit_error (dimension_error naxes (Py.len r))
            else ([Stderr ("ERROR: " ++ columns_error ++ Py.nl);
                   Stderr ("ERROR: " ++ cat_file_error a ++ Py.nl)], Exit 1)
        end
    end.
Proof.
  unfold read_catalogue.
  destruct (cat_lines w) as [ lines | ]; [ | reflexivity ].
  rewrite cat_loop_first.
  destruct (rows lines) as [ | r rest ]; [ reflexivity | ].
  destruct (uniform (Py.len r) rest); [ | reflexivity ].
  cbn [try_except ret]. rewrite bind_done. cbn [app fst snd].
  destruct (Z.eqb_spec (Py.len (map (map Py.strip) (r :: rest))) 0)
    as [E | _]; [ unfold Py.len in E; cbn in E; lia | ].
  rewrite bind_ret.
  destruct (Py.len r =? naxes + 1); cbn [negb]; [ | reflexivity ].
  rewrite bind_ret. reflexivity.
Qed.

Example read_catalogue_dimension_message :
  read_catalogue (with_catalogue demo_world (Some [ln "s1, 1, 2"]))
    demo_args 4
  = ([Stderr ("ERROR: Data cube is 4D, but 2 coordinate values given "
              ++ "in catalogue." ++ Py.nl)], Exit 1).
Proof. vm_compute. reflexivity. Qed.

(** X22.  A row whose coordinates do not convert (a field that is no
    number, say) stops the script on an uncaught exception at that row:
    the runs of the rows before it have been made and stay, the rows
    after it are not looked at and nothing is merged. *)
Theorem conversion_failure_stops (w : world) (a : args) (pars : Py.dict)
    (c : cube) (axes : axes_t) (v id : string)
    (pre post : list (list string)) (coords : list string)
    (regions : list region) (cat_names : list string) :
  Py.get "output.filename" pars = Some v ->
  writable w tmp_file = true ->
  Forall2 (converts w a c axes) pre regions ->
  world2pix w coords = None ->
  bind (sources_loop w a pars c axes (pre ++ (id :: coords) :: post)
          cat_names)
       (merge w pars)
  = (loop_events a pars v pre regions, Uncaught ValueError).
Proof.
  intros Hv Hw Hconv Hnone.
  assert (sources_loop w a pars c axes (pre ++ (id :: coords) :: post)
            cat_names
          = (loop_events a pars v pre regions, Uncaught ValueError)) as Hloop.
  { revert cat_names.
    induction Hconv as [ | src r sources regions Hsrc Hrest IH ];
      intros cat_names.
    - cbn [app sources_loop process_source loop_events].
      unfold source_region. rewrite Hnone. reflexivity.
    - destruct Hsrc as (id' & coords' & -> & Hr).
      cbn [app sources_loop loop_events].
      destruct (within_bounds a r) eqn:Hb.
      + rewrite (process_source_accepted _ _ _ _ _ _ _ _ _ Hr Hb).
        rewrite (run_sofia_writable _ _ _ _ _ _ _ Hv Hw), bind_done, IH.
        reflexivity.
      + rewrite (process_source_rejected _ _ _ _ _ _ _ _ _ Hr Hb), bind_done,
          IH.
        reflexivity. }
  rewrite Hloop. reflexivity.
Qed.

Lemma conversion_failure_stops_witness :
  bind (sources_loop
          picky_world
          demo_args (parse_pars demo_template) demo_cube (0, 1, 2)
          ([["far"; "1"; "2"; "3"; "4"]] ++ ("bad" :: ["x"; "2"; "3"; "4"])
             :: [["far"; "1"; "2"; "3"; "4"]]) [])
       (merge
          picky_world
          (parse_pars demo_template))
  = (loop_events demo_args (parse_pars demo_template) "cube_out"
       [["far"; "1"; "2"; "3"; "4"]] [far_region],
     Uncaught ValueError).
Proof.
  apply (conversion_failure_stops picky_world demo_args (parse_pars demo_template)
           demo_cube (0, 1, 2) "cube_out" "bad"
           [["far"; "1"; "2"; "3"; "4"]] [["far"; "1"; "2"; "3"; "4"]]
           ["x"; "2"; "3"; "4"] [far_region] []).
  - reflexivity.
  - reflexivity.
  - constructor; [ | constructor ].
    exists "far", ["1"; "2"; "3"; "4"].
    split; [ reflexivity | vm_compute; reflexivity ].
  - reflexivity.
Defined.

(** ** Writing parameters and reading them back *)

Lemma lstrip_length (s : string) :
  (String.length (Py.lstrip s) <= String.length s)%nat.
Proof.
  induction s as [ | c s IH ]; cbn [Py.lstrip]; [ reflexivity | ].
  destruct (Py.isspace_char c); cbn [String.length]; lia.
Qed.

Lemma rstrip_length (s : string) :
  (String.length (Py.rstrip s) <= String.length s)%nat.
Proof.
  induction s as [ | c s IH ]; cbn [Py.rstrip]; [ reflexivity | ].
  destruct (Py.rstrip s) as [ | d r ]; cbn [String.length] in *.
  - destruct (Py.isspace_char c); cbn [String.length]; lia.
  - lia.
Qed.

Lemma strip_fixed (k : string) :
  Py.strip k = k -> Py.lstrip k = k /\ Py.rstrip k = k.
Proof.
  intros Hk.
  assert (Py.lstrip k = k) as Hl.
  { destruct k as [ | c k ]; [ reflexivity | ].
    cbn [Py.lstrip]. destruct (Py.isspace_char c) eqn:Ec; [ | reflexivity ].
    exfalso.
    pose proof (rstrip_length (Py.lstrip (String c k))) as H1.
    fold (Py.strip (String c k)) in H1. rewrite Hk in H1.
    cbn [Py.lstrip] in H1. rewrite Ec in H1.
    pose proof (lstrip_length k) as H2. cbn [String.length] in H1. lia. }
  split; [ exact Hl | ]. unfold Py.strip in Hk. rewrite Hl in Hk. exact Hk.
Qed.

Lemma rstrip_cons_nonspace (c : ascii) (s : string) :
  Py.isspace_char c = false ->
  Py.rstrip (String c s) = String c (Py.rstrip s).
Proof.
  intros Hc. cbn [Py.rstrip]. destruct (Py.rstrip s); [ rewrite Hc | ];
    reflexivity.
Qed.

Lemma rstrip_app_keep (x s : string) :
  Py.rstrip s <> EmptyString -> Py.rstrip (x ++ s) = x ++ Py.rstrip s.
Proof.
  intros Hs. induction x as [ | a x IH ]; [ reflexivity | ].
  cbn [append Py.rstrip]. rewrite IH.
  destruct (x ++ Py.rstrip s) eqn:E; [ | reflexivity ].
  destruct x; [ contradiction | discriminate ].
Qed.

Lemma all_space_rstrip (t : string) :
  Py.all_space t = true -> Py.rstrip t = EmptyString.
Proof.
  induction t as [ | c t IH ]; cbn [Py.all_space Py.rstrip]; [ reflexivity | ].
  intros H. apply andb_true_iff in H. destruct H as [Hc Ht].
  rewrite (IH Ht), Hc. reflexivity.
Qed.

Lemma rstrip_app_space (s t : string) :
  Py.all_space t = true -> Py.rstrip (s ++ t) = Py.rstrip s.
Proof.
  intros Ht. induction s as [ | a s IH ]; cbn [append Py.rstrip].
  - apply all_space_rstrip, Ht.
  - rewrite IH. reflexivity.
Qed.

Lemma lstrip_app (x s : string) :
  Py.lstrip (x ++ s)
  = match Py.lstrip x with
    | EmptyString => Py.lstrip s
    | String c r => String c r ++ s
    end.
Proof.
  induction x as [ | a x IH ]; [ reflexivity | ].
  cbn [append Py.lstrip]. destruct (Py.isspace_char a); [ exact IH | ].
  reflexivity.
Qed.

Lemma lstrip_idempotent (s : string) : Py.lstrip (Py.lstrip s) = Py.lstrip s.
Proof.
  destruct (lstrip_head s) as [ -> | (c & r & -> & Hc) ]; [ reflexivity | ].
  cbn [Py.lstrip]. rewrite Hc. reflexivity.
Qed.

Lemma contains_app (c : ascii) (x y : string) :
  Py.contains c (x ++ y) = Py.contains c x || Py.contains c y.
Proof.
  induction x as [ | a x IH ]; cbn [append Py.contains]; [ reflexivity | ].
  rewrite IH, orb_assoc. reflexivity.
Qed.

Lemma split1_app (c : ascii) (x y : string) :
  Py.contains c x = false -> Py.split1 c (x ++ String c y) = (x, y).
Proof.
  induction x as [ | a x IH ]; cbn [append Py.contains Py.split1].
  - intros _. rewrite Ascii.eqb_refl. reflexivity.
  - intros H. apply orb_false_iff in H. destruct H as [Ha Hx].
    rewrite Ha, (IH Hx). reflexivity.
Qed.

Lemma split1_absent (c : ascii) (s : string) :
  Py.contains c s = false -> fst (Py.split1 c s) = s.
Proof.
  induction s as [ | a s IH ]; cbn [Py.contains Py.split1]; [ reflexivity | ].
  intros H. apply orb_false_iff in H. destruct H as [Ha Hs].
  rewrite Ha. specialize (IH Hs). destruct (Py.split1 c s) as [l r].
  cbn [fst] in *. rewrite IH. reflexivity.
Qed.

Lemma strip_key_tab (k : string) : Py.strip k = k -> Py.strip (k ++ Py.tab) = k.
Proof.
  intros Hk. destruct (strip_fixed k Hk) as [Hl Hr].
  unfold Py.strip. rewrite lstrip_app, Hl.
  destruct k as [ | c k ]; [ reflexivity | ].
  rewrite rstrip_app_space by reflexivity. exact Hr.
Qed.

Lemma strip_value_line (v : string) :
  Py.strip v = v -> Py.strip (Py.rstrip (Py.tab ++ v ++ Py.nl)) = v.
Proof.
  intros Hv. destruct (strip_fixed v Hv) as [Hl Hr].
  destruct v as [ | c v ]; [ reflexivity | ].
  rewrite rstrip_app_keep.
  - rewrite rstrip_app_space by reflexivity. rewrite Hr.
    unfold Py.strip.
    change (Py.lstrip (Py.tab ++ String c v)) with (Py.lstrip (String c v)).
    rewrite Hl. exact Hr.
  - rewrite rstrip_app_space by reflexivity. rewrite Hr. discriminate.
Qed.

Lemma strip_line_of (k v : string) :
  Py.strip (line_of (k, v))
  = Py.lstrip (k ++ Py.tab) ++ String "=" (Py.rstrip (Py.tab ++ v ++ Py.nl)).
Proof.
  unfold line_of, Py.strip. cbn [fst snd].
  rewrite <- (append_associative k Py.tab).
  change ("=" ++ Py.tab ++ v ++ Py.nl)
    with (String "="%char (Py.tab ++ v ++ Py.nl)).
  assert (Py.lstrip ((k ++ Py.tab) ++ String "=" (Py.tab ++ v ++ Py.nl))
          = Py.lstrip (k ++ Py.tab) ++ String "=" (Py.tab ++ v ++ Py.nl))
    as ->.
  { rewrite lstrip_app. destruct (Py.lstrip (k ++ Py.tab)); reflexivity. }
  rewrite rstrip_app_keep; rewrite rstrip_cons_nonspace by reflexivity;
    [ reflexivity | discriminate ].
Qed.

Lemma line_of_entry (k v : string) :
  plain_entry (k, v) ->
  well_formed (line_of (k, v)) = true /\ entry (line_of (k, v)) = (k, v).
Proof.
  intros ((Hk & Heq & Hv & Hhash) & Hstart). cbn [fst snd] in *.
  assert (Py.contains "=" (Py.lstrip (k ++ Py.tab)) = false) as Hpre.
  { apply contains_lstrip. rewrite contains_app, Heq. reflexivity. }
  split.
  - unfold well_formed. rewrite strip_line_of, contains_app.
    cbn [Py.contains]. rewrite Ascii.eqb_refl, orb_true_r, andb_true_r.
    rewrite lstrip_app. destruct (strip_fixed k Hk) as [-> _].
    destruct k as [ | c k ]; [ reflexivity | ].
    cbn [append Py.truthy Py.starts_with andb] in *. rewrite Hstart.
    reflexivity.
  - unfold entry. rewrite strip_line_of, (split1_app _ _ _ Hpre).
    f_equal.
    + unfold Py.strip. rewrite lstrip_idempotent. apply strip_key_tab, Hk.
    + rewrite strip_value_line by exact Hv.
      rewrite (split1_absent _ _ Hhash). exact Hv.
Qed.

Lemma concat_empty_join (l : list string) :
  String.concat EmptyString l = join l.
Proof.
  induction l as [ | x l IH ]; [ reflexivity | ].
  cbn [String.concat join fold_right]. fold (join l).
  destruct l as [ | y l ]; [ cbn; rewrite append_empty_r; reflexivity | ].
  rewrite IH. reflexivity.
Qed.

Lemma lines_of_plain (d : Py.dict) :
  Forall plain_entry d ->
  filter well_formed (map line_of d) = map line_of d
  /\ map entry (map line_of d) = d.
Proof.
  intros Hd. induction Hd as [ | [k v] d Hkv Hd (IH1 & IH2) ];
    [ split; reflexivity | ].
  destruct (line_of_entry k v Hkv) as [Hwf Hentry].
  cbn [map filter]. rewrite Hwf, IH1, Hentry, IH2. split; reflexivity.
Qed.

Lemma parse_lines_of (d : Py.dict) :
  Forall plain_entry d -> NoDup (Py.keys d) -> parse_pars (map line_of d) = d.
Proof.
  intros Hd Hnd. destruct (lines_of_plain d Hd) as [Hf He].
  unfold parse_pars. rewrite (fold_par_line _ []).
  - rewrite Hf, He. reflexivity.
  - rewrite Hf. change (Py.keys []) with (@nil string). cbn [app].
    rewrite <- (map_map entry fst), He. exact Hnd.
Qed.

Lemma single_line_app (x y : string) :
  single_line (x ++ y) = single_line x && single_line y.
Proof.
  unfold single_line. rewrite !contains_app.
  destruct (Py.contains "010" x), (Py.contains "013" x),
    (Py.contains "010" y), (Py.contains "013" y); reflexivity.
Qed.

Lemma text_lines_first (s rest : string) :
  single_line s = true ->
  Py.text_lines (s ++ Py.nl ++ rest) = (s ++ Py.nl) :: Py.text_lines rest.
Proof.
  induction s as [ | c s IH ]; intros Hs; [ reflexivity | ].
  unfold single_line in Hs. cbn [Py.contains] in Hs.
  apply andb_true_iff in Hs. destruct Hs as [Hn Hr].
  apply negb_true_iff, orb_false_iff in Hn, Hr.
  destruct Hn as [Hn Hn'], Hr as [Hr Hr'].
  cbn [append Py.text_lines]. rewrite Hn, Hr.
  rewrite IH by (unfold single_line; rewrite Hn', Hr'; reflexivity).
  reflexivity.
Qed.

Lemma text_lines_join (d : Py.dict) :
  Forall (fun kv => single_line (fst kv) = true
                    /\ single_line (snd kv) = true) d ->
  Py.text_lines (join (map line_of d)) = map line_of d.
Proof.
  intros Hd. induction Hd as [ | [k v] d (Hk & Hv) Hd IH ]; [ reflexivity | ].
  cbn [map join fold_right fst snd] in *. fold (join (map line_of d)).
  unfold line_of at 1. cbn [fst snd].
  replace ((k ++ Py.tab ++ "=" ++ Py.tab ++ v ++ Py.nl) ++ join (map line_of d))
    with ((k ++ Py.tab ++ "=" ++ Py.tab ++ v) ++ Py.nl ++ join (map line_of d))
    by (rewrite !append_associative; reflexivity).
  rewrite text_lines_first.
  - rewrite IH. unfold line_of. cbn [fst snd].
    rewrite !append_associative. reflexivity.
  - rewrite !single_line_app, Hk, Hv. reflexivity.
Qed.

(** X23.  A parameter file written the way lines 213-214 write it reads
    back, line by line as iterating over the open file yields them and
    through the loader of lines 115-128, as the parameters it was written
    from, in the same order, as long as these have no key twice, keys and
    values are trimmed and have no line break, no key has a [=] or starts
    with [#] and no value has a [#]. *)
Theorem parameters_round_trip (d : Py.dict) :
  Forall plain_entry d ->
  NoDup (Py.keys d) ->
  Forall (fun kv => single_line (fst kv) = true
                    /\ single_line (snd kv) = true) d ->
  serialise d = join (map line_of d)
  /\ Py.text_lines (serialise d) = map line_of d
  /\ parse_pars (Py.text_lines (serialise d)) = d.
Proof.
  intros Hd Hnd Hline.
  assert (serialise d = join (map line_of d)) as Hs
      by (unfold serialise; rewrite concat_empty_join; reflexivity).
  split; [ exact Hs | ]. rewrite Hs, (text_lines_join d Hline).
  split; [ reflexivity | apply parse_lines_of; assumption ].
Qed.

Lemma parameters_round_trip_witness :
  serialise [("input.data", "cube.fits"); ("output.filename", EmptyString)]
  = join (map line_of
            [("input.data", "cube.fits"); ("output.filename", EmptyString)])
  /\ Py.text_lines
       (serialise
          [("input.data", "cube.fits"); ("output.filename", EmptyString)])
     = map line_of
         [("input.data", "cube.fits"); ("output.filename", EmptyString)]
  /\ parse_pars
       (Py.text_lines
          (serialise
             [("input.data", "cube.fits"); ("output.filename", EmptyString)]))
     = [("input.data", "cube.fits"); ("output.filename", EmptyString)].
Proof.
  apply (parameters_round_trip
           [("input.data", "cube.fits"); ("output.filename", EmptyString)]).
  - repeat (apply Forall_cons || apply Forall_nil);
      vm_compute; repeat split.
  - repeat (constructor; [ cbn; intuition discriminate | ]). constructor.
  - repeat (apply Forall_cons || apply Forall_nil);
      vm_compute; repeat split.
Defined.

(** A value with a line break in it does not read back: the written text
    has one line more than there are parameters, and the loader keeps the
    part of the value before the break. *)
Example parameters_line_break :
  let d := [("k", String "a" (Py.nl ++ "b"))] in
  Forall plain_entry d /\ NoDup (Py.keys d)
  /\ Py.text_lines (serialise d)
     = [ln ("k" ++ Py.tab ++ "=" ++ Py.tab ++ "a"); ln "b"]
  /\ parse_pars (Py.text_lines (serialise d)) = [("k", "a")].
Proof.
  cbv zeta. split; [ | split; [ | vm_compute; split; reflexivity ] ].
  - apply Forall_cons; [ vm_compute; repeat split | apply Forall_nil ].
  - repeat (constructor; [ cbn; intuition discriminate | ]). constructor.
Qed.

(** The lines of a text file end where the file has a line feed, a
    carriage return or both. *)
Example text_lines_values :
  Py.text_lines ("a" ++ Py.nl ++ "b") = [ln "a"; "b"]
  /\ Py.text_lines ("a" ++ String "013" Py.nl ++ "b") = [ln "a"; "b"]
  /\ Py.text_lines ("a" ++ String "013" "b" ++ Py.nl) = [ln "a"; ln "b"]
  /\ Py.text_lines (Py.nl ++ Py.nl) = [Py.nl; Py.nl]
  /\ Py.text_lines EmptyString = [].
Proof. vm_compute. repeat split. Qed.





